(** * cave_explorer.py: frontier exploration controller

    A shallow embedding of [src/cave_explorer.py] and the properties of its
    planner, clustering and main loop.

    Numbers.  Python [int]s are [Z].  Python [float]s are modelled by exact
    rationals [Q]: rounding of binary64 arithmetic is not modelled, only the
    exact value of each expression.  [math.pi] is the exact rational value
    of the double the [math] module holds.  The square root taken by
    [** 0.5] is kept symbolic (type [dist]).

    Effects.  Methods of [CaveExplorer] take the object and return the
    updated object inside the [result] monad; a Python exception is
    [Raise].  The action client is modelled by the log of the goals passed
    to [send_goal]; what [get_state] answers is an input of each tick. *)

From Stdlib Require Import ZArith QArith Qround Qabs List Bool Lia Lqa Permutation.
From AAC_tactics Require Import AAC.
From AAC_tactics Require Instances.
Import Instances.Lists.
Import ListNotations.

Open Scope Z_scope.

(** ** Outcomes of Python code *)

Inductive exn : Type :=
| ValueError
| TypeError
| ZeroDivisionError
| AttributeError.

(** [Timeout] is the answer of a loop whose fuel ran out; the theorems below
    show that the fuel the callers supply is always enough. *)
Inductive result (A : Type) : Type :=
| Ok (a : A)
| Raise (e : exn)
| Timeout.

Arguments Ok {A} a.
Arguments Raise {A} e.
Arguments Timeout {A}.

Definition bind {A B : Type} (r : result A) (k : A -> result B) : result B :=
  match r with
  | Ok a => k a
  | Raise e => Raise e
  | Timeout => Timeout
  end.

Notation "x <- c ;; k" := (bind c (fun x => k))
  (at level 61, c at next level, right associativity).
Notation "' p <- c ;; k" := (bind c (fun p => k))
  (at level 61, p pattern, c at next level, right associativity).

(** ** Python list primitives used by the source *)

Definition cell : Type := (Z * Z)%type.

Definition cell_eqb (a b : cell) : bool :=
  (fst a =? fst b) && (snd a =? snd b).

(** [c in l] *)
Fixpoint py_in (c : cell) (l : list cell) : bool :=
  match l with
  | [] => false
  | d :: l' => cell_eqb c d || py_in c l'
  end.

(** [l.remove(c)]: drops the first occurrence (the source only calls it
    after [c in l]). *)
Fixpoint py_remove (c : cell) (l : list cell) : list cell :=
  match l with
  | [] => []
  | d :: l' => if cell_eqb c d then l' else d :: py_remove c l'
  end.

(** [range(n)] *)
Definition range (n : nat) : list Z := map Z.of_nat (seq 0 n).

(** [sum(l)] on integers *)
Definition py_sum (l : list Z) : Z := fold_left Z.add l 0.

(** ** Float expressions as exact rationals *)

Definition Qltb (a b : Q) : bool := negb (Qle_bool b a).

(** [int(q)]: truncation toward zero. *)
Definition py_int (q : Q) : Z := Z.quot (Qnum q) (Zpos (Qden q)).

(** [a / b] on floats. *)
Definition py_div (a b : Q) : result Q :=
  if Qeq_bool b 0 then Raise ZeroDivisionError else Ok (a / b)%Q.

(** [math.pi], the double 0x1.921fb54442d18p+1. *)
Definition math_pi : Q := 884279719003555 # 281474976710656.

Definition two_pi : Q := (2 * math_pi)%Q.

(** ** wrap_angle *)

(** [while angle < 0.0: angle = angle + 2 * math.pi] *)
Fixpoint wrap_angle_up (fuel : nat) (angle : Q) : result Q :=
  if Qltb angle 0 then
    match fuel with
    | O => Timeout
    | S fuel' => wrap_angle_up fuel' (angle + two_pi)%Q
    end
  else Ok angle.

(** [while angle > 2 * math.pi: angle = angle - 2 * math.pi] *)
Fixpoint wrap_angle_down (fuel : nat) (angle : Q) : result Q :=
  if Qltb two_pi angle then
    match fuel with
    | O => Timeout
    | S fuel' => wrap_angle_down fuel' (angle - two_pi)%Q
    end
  else Ok angle.

(** A number of iterations that covers either loop. *)
Definition wrap_fuel (angle : Q) : nat :=
  S (Z.to_nat (Qfloor (Qabs angle / two_pi))).

Definition wrap_angle (angle : Q) : result Q :=
  angle <- wrap_angle_up (wrap_fuel angle) angle ;;
  wrap_angle_down (wrap_fuel angle) angle.

(** ** Messages *)

Record Pose2D : Type := mkPose2D {
  pose2d_x : Q;
  pose2d_y : Q;
  pose2d_theta : Q
}.

(** [Pose2D()]: every field of a fresh message is zero. *)
Definition Pose2D_new : Pose2D := mkPose2D 0 0 0.

(** The fields of [geometry_msgs/Pose] the source writes; the others keep
    their default. *)
Record Pose : Type := mkPose {
  position_x : Q;
  position_y : Q;
  orientation_z : Q;
  orientation_w : Q
}.

Inductive frame : Type := frame_map.

Record MoveBaseGoal : Type := mkMoveBaseGoal {
  target_frame_id : frame;
  target_pose : Pose
}.

Record MoveBaseActionGoal : Type := mkMoveBaseActionGoal {
  goal_id : Z;
  goal : MoveBaseGoal
}.

(** [nav_msgs/OccupancyGrid]: [info.width], [info.height] (unsigned),
    [info.resolution], [info.origin.position] and the row-major [data]. *)
Record OccupancyGrid : Type := mkOccupancyGrid {
  info_width : nat;
  info_height : nat;
  info_resolution : Q;
  info_origin_x : Q;
  info_origin_y : Q;
  data : list Z
}.

(** What [lookupTransform('map', 'base_link', ...)] answers: the translation
    and the quaternion [(x, y, z, w)]. *)
Record Transform : Type := mkTransform {
  trans : Q * Q * Q;
  rot : Q * Q * Q * Q
}.

(** [actionlib.GoalStatus] *)
Module GoalStatus.
Definition PENDING : Z := 0.
Definition ACTIVE : Z := 1.
Definition PREEMPTED : Z := 2.
Definition SUCCEEDED : Z := 3.
Definition ABORTED : Z := 4.
Definition REJECTED : Z := 5.
Definition PREEMPTING : Z := 6.
Definition RECALLING : Z := 7.
Definition RECALLED : Z := 8.
Definition LOST : Z := 9.
End GoalStatus.

Inductive PlannerType : Type :=
| ERROR
| MOVE_FORWARDS
| RETURN_HOME
| GO_TO_FIRST_ARTIFACT
| RANDOM_WALK
| RANDOM_GOAL
| FRONTIER_EXPLORER.

Definition PlannerType_eqb (a b : PlannerType) : bool :=
  match a, b with
  | ERROR, ERROR
  | MOVE_FORWARDS, MOVE_FORWARDS
  | RETURN_HOME, RETURN_HOME
  | GO_TO_FIRST_ARTIFACT, GO_TO_FIRST_ARTIFACT
  | RANDOM_WALK, RANDOM_WALK
  | RANDOM_GOAL, RANDOM_GOAL
  | FRONTIER_EXPLORER, FRONTIER_EXPLORER => true
  | _, _ => false
  end.

(** A detection of the classifier: [(x, y, width, height)]. *)
Definition detection : Type := (Z * Z * Z * Z)%type.

(** A rectangle drawn on the published image: two corners. *)
Definition rectangle : Type := ((Z * Z) * (Z * Z))%type.

(** ** The CaveExplorer object

    The attributes of [__init__], in its order.  [finished_exploring] is the
    attribute that only line 425 of [planner_to_frontiers] creates ([None]
    while the object has no such attribute); [__init__] and [main_loop] use
    the differently spelt [finised_exploring].  [tf_listener_] holds the
    latest transform, [move_base_action_client_] the goals passed to
    [send_goal] (oldest first), [image_detections_pub_] the published
    frames. *)
Record CaveExplorer : Type := mkCaveExplorer {
  localised_ : bool;
  artifact_found_ : bool;
  grid_map_ : option OccupancyGrid;
  planner_type_ : PlannerType;
  reached_first_artifact_ : bool;
  returned_home_ : bool;
  reached_closest_frontier_ : bool;
  finised_exploring : bool;
  rotate_ : bool;
  goal_counter_ : Z;
  finished_exploring : option bool;
  tf_listener_ : Transform;
  move_base_action_client_ : list MoveBaseGoal;
  image_detections_pub_ : list (list rectangle)
}.

(** The object as [__init__] leaves it, once the transform [tf] and the
    first map [g] have arrived. *)
Definition CaveExplorer_init (tf : Transform) (g : OccupancyGrid) : CaveExplorer :=
  mkCaveExplorer false false (Some g) ERROR false false false false false 0
                 None tf [] [].

Definition set_artifact_found_ (b : bool) (s : CaveExplorer) : CaveExplorer :=
  mkCaveExplorer (localised_ s) b (grid_map_ s) (planner_type_ s)
    (reached_first_artifact_ s) (returned_home_ s) (reached_closest_frontier_ s)
    (finised_exploring s) (rotate_ s) (goal_counter_ s) (finished_exploring s)
    (tf_listener_ s) (move_base_action_client_ s) (image_detections_pub_ s).

Definition set_grid_map_ (g : option OccupancyGrid) (s : CaveExplorer) : CaveExplorer :=
  mkCaveExplorer (localised_ s) (artifact_found_ s) g (planner_type_ s)
    (reached_first_artifact_ s) (returned_home_ s) (reached_closest_frontier_ s)
    (finised_exploring s) (rotate_ s) (goal_counter_ s) (finished_exploring s)
    (tf_listener_ s) (move_base_action_client_ s) (image_detections_pub_ s).

Definition set_planner_type_ (p : PlannerType) (s : CaveExplorer) : CaveExplorer :=
  mkCaveExplorer (localised_ s) (artifact_found_ s) (grid_map_ s) p
    (reached_first_artifact_ s) (returned_home_ s) (reached_closest_frontier_ s)
    (finised_exploring s) (rotate_ s) (goal_counter_ s) (finished_exploring s)
    (tf_listener_ s) (move_base_action_client_ s) (image_detections_pub_ s).

Definition set_reached_first_artifact_ (b : bool) (s : CaveExplorer) : CaveExplorer :=
  mkCaveExplorer (localised_ s) (artifact_found_ s) (grid_map_ s) (planner_type_ s)
    b (returned_home_ s) (reached_closest_frontier_ s)
    (finised_exploring s) (rotate_ s) (goal_counter_ s) (finished_exploring s)
    (tf_listener_ s) (move_base_action_client_ s) (image_detections_pub_ s).

Definition set_returned_home_ (b : bool) (s : CaveExplorer) : CaveExplorer :=
  mkCaveExplorer (localised_ s) (artifact_found_ s) (grid_map_ s) (planner_type_ s)
    (reached_first_artifact_ s) b (reached_closest_frontier_ s)
    (finised_exploring s) (rotate_ s) (goal_counter_ s) (finished_exploring s)
    (tf_listener_ s) (move_base_action_client_ s) (image_detections_pub_ s).

Definition set_goal_counter_ (n : Z) (s : CaveExplorer) : CaveExplorer :=
  mkCaveExplorer (localised_ s) (artifact_found_ s) (grid_map_ s) (planner_type_ s)
    (reached_first_artifact_ s) (returned_home_ s) (reached_closest_frontier_ s)
    (finised_exploring s) (rotate_ s) n (finished_exploring s)
    (tf_listener_ s) (move_base_action_client_ s) (image_detections_pub_ s).

Definition set_finished_exploring (b : bool) (s : CaveExplorer) : CaveExplorer :=
  mkCaveExplorer (localised_ s) (artifact_found_ s) (grid_map_ s) (planner_type_ s)
    (reached_first_artifact_ s) (returned_home_ s) (reached_closest_frontier_ s)
    (finised_exploring s) (rotate_ s) (goal_counter_ s) (Some b)
    (tf_listener_ s) (move_base_action_client_ s) (image_detections_pub_ s).

Definition set_tf_listener_ (tf : Transform) (s : CaveExplorer) : CaveExplorer :=
  mkCaveExplorer (localised_ s) (artifact_found_ s) (grid_map_ s) (planner_type_ s)
    (reached_first_artifact_ s) (returned_home_ s) (reached_closest_frontier_ s)
    (finised_exploring s) (rotate_ s) (goal_counter_ s) (finished_exploring s)
    tf (move_base_action_client_ s) (image_detections_pub_ s).

(** [self.move_base_action_client_.send_goal(g)] *)
Definition send_goal (g : MoveBaseGoal) (s : CaveExplorer) : CaveExplorer :=
  mkCaveExplorer (localised_ s) (artifact_found_ s) (grid_map_ s) (planner_type_ s)
    (reached_first_artifact_ s) (returned_home_ s) (reached_closest_frontier_ s)
    (finised_exploring s) (rotate_ s) (goal_counter_ s) (finished_exploring s)
    (tf_listener_ s) (move_base_action_client_ s ++ [g]) (image_detections_pub_ s).

(** [self.image_detections_pub_.publish(m)] *)
Definition publish (m : list rectangle) (s : CaveExplorer) : CaveExplorer :=
  mkCaveExplorer (localised_ s) (artifact_found_ s) (grid_map_ s) (planner_type_ s)
    (reached_first_artifact_ s) (returned_home_ s) (reached_closest_frontier_ s)
    (finised_exploring s) (rotate_ s) (goal_counter_ s) (finished_exploring s)
    (tf_listener_ s) (move_base_action_client_ s) (image_detections_pub_ s ++ [m]).

(** ** Methods that need the math module

    [math.cos], [math.sin] and [math.acos] are taken as they come: any
    functions on the modelled floats.  [math.acos] raises [ValueError]
    outside [[-1, 1]]. *)

Section Methods.

Variables math_cos math_sin math_acos : Q -> Q.

Definition py_acos (v : Q) : result Q :=
  if Qltb v (-1) || Qltb 1 v then Raise ValueError else Ok (math_acos v).

Definition pose2d_to_pose (pose_2d : Pose2D) : Pose :=
  mkPose (pose2d_x pose_2d) (pose2d_y pose_2d)
         (math_sin (pose2d_theta pose_2d / 2))%Q
         (math_cos (pose2d_theta pose_2d)).

Definition get_pose_2d (self : CaveExplorer) : result Pose2D :=
  let '(trans, rot) := (trans (tf_listener_ self), rot (tf_listener_ self)) in
  let '(t0, t1, _) := trans in
  let '(_, _, qz, qw) := rot in
  theta <-
    (if Qle_bool 0 qz then
       a <- py_acos qw ;; wrap_angle (2 * a)%Q
     else
       a <- py_acos qw ;; wrap_angle (-2 * a)%Q) ;;
  Ok (mkPose2D t0 t1 theta).

(** [image_callback]; [detections] is what the classifier answers on the
    frame.  Each rectangle goes from [(x, y)] to [(x + height, y + width)],
    as the source draws it. *)
Definition image_callback (self : CaveExplorer) (detections : list detection) : CaveExplorer :=
  let num_detections := Z.of_nat (length detections) in
  let self :=
    if 0 <? num_detections then set_artifact_found_ true self
    else set_artifact_found_ false self in
  let image :=
    map (fun '(x, y, width, height) => ((x, y), (x + height, y + width)))
        detections in
  publish image self.

Definition map_callback (self : CaveExplorer) (map_data : OccupancyGrid) : CaveExplorer :=
  set_grid_map_ (Some map_data) self.

(** The block every planner repeats: build the action goal for [pose_2d]
    with the next identifier, advance the counter, send [action_goal.goal]. *)
Definition send_pose_goal (self : CaveExplorer) (pose_2d : Pose2D) : CaveExplorer :=
  let action_goal :=
    mkMoveBaseActionGoal (goal_counter_ self)
                         (mkMoveBaseGoal frame_map (pose2d_to_pose pose_2d)) in
  let self := set_goal_counter_ (goal_counter_ self + 1) self in
  send_goal (goal action_goal) self.

Definition planner_move_forwards (self : CaveExplorer) (action_state : Z)
  : result CaveExplorer :=
  if action_state =? GoalStatus.LOST then
    pose_2d <- get_pose_2d self ;;
    let pose_2d :=
      mkPose2D (pose2d_x pose_2d + 10 * math_cos (pose2d_theta pose_2d))%Q
               (pose2d_y pose_2d + 10 * math_sin (pose2d_theta pose_2d))%Q
               (pose2d_theta pose_2d) in
    Ok (send_pose_goal self pose_2d)
  else Ok self.

Definition planner_go_to_first_artifact (self : CaveExplorer) (action_state : Z)
  : result CaveExplorer :=
  if negb (action_state =? GoalStatus.ACTIVE) then
    let pose_2d := mkPose2D 18 25 (- math_pi / 2)%Q in
    Ok (send_pose_goal self pose_2d)
  else Ok self.

Definition planner_return_home (self : CaveExplorer) (action_state : Z)
  : result CaveExplorer :=
  if negb (action_state =? GoalStatus.ACTIVE) then
    let pose_2d := mkPose2D 0 0 0 in
    Ok (send_pose_goal self pose_2d)
  else Ok self.

(** [rx], [ry], [rtheta] are the three values [random.uniform] draws. *)
Definition planner_random_walk (rx ry rtheta : Q)
  (self : CaveExplorer) (action_state : Z) : result CaveExplorer :=
  if negb (action_state =? GoalStatus.ACTIVE) then
    let pose_2d := mkPose2D rx ry rtheta in
    Ok (send_pose_goal self pose_2d)
  else Ok self.

Definition random_goals : list (Q * Q) :=
  [ (533 # 10, 407 # 10); (444 # 10, 133 # 10); (23 # 10, 334 # 10);
    (99 # 10, 373 # 10); (34 # 10, 185 # 10); (60 # 10, 4 # 10);
    (283 # 10, 118 # 10); (437 # 10, 128 # 10); (389 # 10, 430 # 10);
    (474 # 10, 47 # 10); (315 # 10, 32 # 10); (366 # 10, 325 # 10) ]%Q.

(** [idx] is the index [random.randint(0, len(random_goals) - 1)] draws,
    [rtheta] the value of [random.uniform]. *)
Definition planner_random_goal (idx : nat) (rtheta : Q)
  (self : CaveExplorer) (action_state : Z) : result CaveExplorer :=
  if negb (action_state =? GoalStatus.ACTIVE) then
    let g := nth idx random_goals (0, 0)%Q in
    let pose_2d := mkPose2D (fst g) (snd g) rtheta in
    Ok (send_pose_goal self pose_2d)
  else Ok self.

(** ** planner_to_frontiers, step by step *)

(** The comprehension of lines 337 and 367: the in-bounds cells among the
    eight around [(x, y)], [dx] outermost. *)
Definition neighbours8 (width height : Z) (x y : Z) : list cell :=
  flat_map (fun dx =>
    flat_map (fun dy =>
      if (negb (dx =? 0) || negb (dy =? 0))
         && ((0 <=? x + dx) && (x + dx <? width))
         && ((0 <=? y + dy) && (y + dy <? height))
      then [(x + dx, y + dy)] else [])
      [-1; 0; 1])
    [-1; 0; 1].

(** [np.array(data).reshape((height, width))] fails unless the array has
    [height * width] entries. *)
Definition reshape (g : OccupancyGrid) : result (list Z) :=
  if (length (data g) =? info_height g * info_width g)%nat
  then Ok (data g) else Raise ValueError.

(** [map_data[y, x]] on the reshaped array, for an in-bounds [(x, y)]. *)
Definition map_data_at (width : Z) (map_data : list Z) (x y : Z) : Z :=
  nth (Z.to_nat (y * width + x)) map_data 100.

(** Lines 336 to 338: free, and some neighbour unknown. *)
Definition is_frontier (width height : Z) (map_data : list Z) (x y : Z) : bool :=
  (map_data_at width map_data x y =? 0)
  && existsb (fun '(nx, ny) => map_data_at width map_data nx ny =? -1)
             (neighbours8 width height x y).

(** Lines 334 to 340: the world coordinates of the frontier cells, rows
    outermost. *)
Definition detect_frontiers (g : OccupancyGrid) (map_data : list Z) : list (Q * Q) :=
  let width := Z.of_nat (info_width g) in
  let height := Z.of_nat (info_height g) in
  flat_map (fun y =>
    flat_map (fun x =>
      if is_frontier width height map_data x y
      then [ (inject_Z x * info_resolution g + info_origin_x g,
              inject_Z y * info_resolution g + info_origin_y g)%Q ]
      else [])
      (range (info_width g)))
    (range (info_height g)).

(** Line 341 evaluates [max(frontiers, key=len)] to build its log message;
    [max] of an empty list raises. *)
Definition log_detected (frontiers : list (Q * Q)) : result unit :=
  match frontiers with
  | [] => Raise ValueError
  | _ :: _ => Ok tt
  end.

(** Line 345: back from world coordinates to grid cells. *)
Fixpoint frontier_queue (g : OccupancyGrid) (frontiers : list (Q * Q)) : result (list cell) :=
  match frontiers with
  | [] => Ok []
  | (wx, wy) :: rest =>
      cx <- py_div (wx - info_origin_x g) (info_resolution g) ;;
      cy <- py_div (wy - info_origin_y g) (info_resolution g) ;;
      queue <- frontier_queue g rest ;;
      Ok ((py_int cx, py_int cy) :: queue)
  end.

(** Lines 372 to 375: move the neighbours still queued to [to_visit]. *)
Fixpoint take_neighbours (neighbours : list cell) (queue to_visit : list cell)
  : list cell * list cell :=
  match neighbours with
  | [] => (queue, to_visit)
  | neighbour :: rest =>
      if py_in neighbour queue
      then take_neighbours rest (py_remove neighbour queue) (to_visit ++ [neighbour])
      else take_neighbours rest queue to_visit
  end.

(** Lines 358 to 375, the inner [while to_visit]; answers the queue, the
    visited list and the group when [to_visit] is empty. *)
Fixpoint visit_group (fuel : nat) (width height : Z)
  (to_visit queue visited current_group : list cell)
  : result (list cell * list cell * list cell) :=
  match to_visit with
  | [] => Ok (queue, visited, current_group)
  | frontier :: to_visit =>
      match fuel with
      | O => Timeout
      | S fuel =>
          if py_in frontier visited
          then visit_group fuel width height to_visit queue visited current_group
          else
            let visited := visited ++ [frontier] in
            let current_group := current_group ++ [frontier] in
            let neighbours := neighbours8 width height (fst frontier) (snd frontier) in
            let '(queue, to_visit) := take_neighbours neighbours queue to_visit in
            visit_group fuel width height to_visit queue visited current_group
      end
  end.

(** Line 378: [len(current_group) > 500]. *)
Definition kept (current_group : list cell) : bool :=
  (500 <? length current_group)%nat.

(** Lines 348 to 379, the outer [while queue].  [grouped_frontiers] is the
    list the source builds; [groups] is a ghost list that records every
    group the loop forms, kept or not, in the order they are formed. *)
Fixpoint group_frontiers (fuel : nat) (width height : Z)
  (queue visited : list cell) (grouped_frontiers groups : list (list cell))
  : result (list (list cell) * list (list cell)) :=
  match queue with
  | [] => Ok (grouped_frontiers, groups)
  | current :: queue =>
      match fuel with
      | O => Timeout
      | S fuel =>
          if py_in current visited
          then group_frontiers fuel width height queue visited grouped_frontiers groups
          else
            ' (queue, visited, current_group) <-
              visit_group (S (length queue)) width height [current] queue visited [] ;;
            let grouped_frontiers :=
              if kept current_group
              then grouped_frontiers ++ [current_group]
              else grouped_frontiers in
            group_frontiers fuel width height queue visited grouped_frontiers
                            (groups ++ [current_group])
      end
  end.

(** The distance of line 399, [(...) ** 0.5]: the square root of a rational,
    kept as its radicand; [Inf] is [float('inf')]. *)
Inductive dist : Type :=
| Sqrt (radicand : Q)
| Inf.

(** [d < m] on distances; the radicands are sums of squares. *)
Definition dist_ltb (d m : dist) : bool :=
  match d, m with
  | Sqrt a, Sqrt b => Qltb a b
  | Sqrt _, Inf => true
  | Inf, _ => false
  end.

(** [sum([...]) / len(group)]: true division of two integers. *)
Definition py_mean (l : list Z) : result Q :=
  if (length l =? 0)%nat then Raise ZeroDivisionError
  else Ok (inject_Z (py_sum l) / inject_Z (Z.of_nat (length l)))%Q.

(** Lines 392 to 396 (and again 405 to 407): the centroid of a group in
    world coordinates. *)
Definition world_centroid (g : OccupancyGrid) (group : list cell) : result (Q * Q) :=
  centroid_x <- py_mean (map fst group) ;;
  centroid_y <- py_mean (map snd group) ;;
  Ok (centroid_x * info_resolution g + info_origin_x g,
      centroid_y * info_resolution g + info_origin_y g)%Q.

Definition distance (wx wy robot_x robot_y : Q) : dist :=
  Sqrt ((wx - robot_x) * (wx - robot_x) + (wy - robot_y) * (wy - robot_y))%Q.

(** Lines 391 to 403, the [for group in grouped_frontiers]. *)
Fixpoint find_closest (g : OccupancyGrid) (robot_x robot_y : Q)
  (grouped_frontiers : list (list cell))
  (closest_frontier_group : option (list cell)) (min_distance : dist)
  : result (option (list cell)) :=
  match grouped_frontiers with
  | [] => Ok closest_frontier_group
  | group :: rest =>
      ' (wx, wy) <- world_centroid g group ;;
      let d := distance wx wy robot_x robot_y in
      if dist_ltb d min_distance
      then find_closest g robot_x robot_y rest (Some group) d
      else find_closest g robot_x robot_y rest closest_frontier_group min_distance
  end.

(** Lines 344 to 379, "Group nearby frontiers": the queue of cells and the
    grouping.  Answers [grouped_frontiers] and the ghost list of all groups. *)
Definition group_nearby_frontiers (g : OccupancyGrid) (frontiers : list (Q * Q))
  : result (list (list cell) * list (list cell)) :=
  let width := Z.of_nat (info_width g) in
  let height := Z.of_nat (info_height g) in
  queue <- frontier_queue g frontiers ;;
  group_frontiers (length queue) width height queue [] [] [].

Definition planner_to_frontiers (self : CaveExplorer) (action_state : Z)
  : result CaveExplorer :=
  if negb (action_state =? GoalStatus.ACTIVE) then
    match grid_map_ self with
    | None => Raise AttributeError
    | Some g =>
        map_data <- reshape g ;;
        let frontiers := detect_frontiers g map_data in
        _ <- log_detected frontiers ;;
        ' (grouped_frontiers, _) <- group_nearby_frontiers g frontiers ;;
        match frontiers with
        | _ :: _ =>
            let robot_pose := Pose2D_new in
            let robot_x := pose2d_x robot_pose in
            let robot_y := pose2d_y robot_pose in
            closest_frontier_group <-
              find_closest g robot_x robot_y grouped_frontiers None Inf ;;
            match closest_frontier_group with
            | None => Raise TypeError
            | Some group =>
                ' (wx, wy) <- world_centroid g group ;;
                let pose_2d := mkPose2D wx wy (pose2d_theta Pose2D_new) in
                Ok (send_pose_goal self pose_2d)
            end
        | [] => Ok (set_finished_exploring true self)
        end
    end
  else Ok self.

(** ** main_loop *)

(** One pass through the body of [while not rospy.is_shutdown()], with the
    answer of [get_state()].  The boolean is [false] when the pass ends in
    the [break]. *)
Definition main_loop_body (self : CaveExplorer) (action_state : Z)
  : result (CaveExplorer * bool) :=
  let self :=
    if PlannerType_eqb (planner_type_ self) GO_TO_FIRST_ARTIFACT
       && (action_state =? GoalStatus.SUCCEEDED)
    then set_reached_first_artifact_ true self else self in
  let self :=
    if PlannerType_eqb (planner_type_ self) RETURN_HOME
       && (action_state =? GoalStatus.SUCCEEDED)
    then set_returned_home_ true self else self in
  let '(self, continue) :=
    if negb (finised_exploring self)
    then (set_planner_type_ FRONTIER_EXPLORER self, true)
    else if negb (returned_home_ self)
         then (set_planner_type_ RETURN_HOME self, true)
         else (self, false) in
  if continue then
    self <-
      match planner_type_ self with
      | MOVE_FORWARDS => planner_move_forwards self action_state
      | GO_TO_FIRST_ARTIFACT => planner_go_to_first_artifact self action_state
      | FRONTIER_EXPLORER => planner_to_frontiers self action_state
      | RETURN_HOME => planner_return_home self action_state
      | _ => Ok self
      end ;;
    Ok (self, true)
  else Ok (self, false).

(** What happens around the loop: a pass through its body, a callback of one
    of the two subscribers, a new transform, or the shutdown of the node. *)
Inductive event : Type :=
| Tick (action_state : Z)
| MapMsg (map_data : OccupancyGrid)
| ImageMsg (detections : list detection)
| TfUpdate (tf : Transform)
| Shutdown.

(** How a run along a trace ends: still in the loop, out of it (the [break]
    or the shutdown), or with an exception that nothing catches. *)
Inductive outcome : Type :=
| Looping (self : CaveExplorer)
| Exited (self : CaveExplorer)
| Crashed (e : exn)
| Stuck.

(** [main_loop] along a finite trace of events. *)
Fixpoint main_loop (trace : list event) (self : CaveExplorer) : outcome :=
  match trace with
  | [] => Looping self
  | Shutdown :: _ => Exited self
  | MapMsg m :: trace => main_loop trace (map_callback self m)
  | ImageMsg d :: trace => main_loop trace (image_callback self d)
  | TfUpdate tf :: trace => main_loop trace (set_tf_listener_ tf self)
  | Tick action_state :: trace =>
      match main_loop_body self action_state with
      | Ok (self, true) => main_loop trace self
      | Ok (self, false) => Exited self
      | Raise e => Crashed e
      | Timeout => Stuck
      end
  end.

End Methods.

(** ** Derived notions used by the statements *)

(** The cell whose world coordinates [detect_frontiers] appends. *)
Definition cell_to_world (g : OccupancyGrid) (c : cell) : Q * Q :=
  (inject_Z (fst c) * info_resolution g + info_origin_x g,
   inject_Z (snd c) * info_resolution g + info_origin_y g)%Q.

(** The grid cells behind [detect_frontiers], in the same order. *)
Definition frontier_cells (g : OccupancyGrid) (map_data : list Z) : list cell :=
  let width := Z.of_nat (info_width g) in
  let height := Z.of_nat (info_height g) in
  flat_map (fun y =>
    flat_map (fun x =>
      if is_frontier width height map_data x y then [(x, y)] else [])
      (range (info_width g)))
    (range (info_height g)).

(** The distance from [(robot_x, robot_y)] to the world centroid of a group
    (line 399). *)
Definition centroid_dist (g : OccupancyGrid) (robot_x robot_y : Q)
  (group : list cell) : dist :=
  match world_centroid g group with
  | Ok (wx, wy) => distance wx wy robot_x robot_y
  | _ => Inf
  end.

(** What [main_loop] never leaves: the flag it reads is still false, the
    robot has not returned home, and the planner is the initial one or the
    frontier explorer. *)
Definition exploring (s : CaveExplorer) : Prop :=
  finised_exploring s = false /\
  returned_home_ s = false /\
  (planner_type_ s = ERROR \/ planner_type_ s = FRONTIER_EXPLORER).

(** A cell of the grid. *)
Definition in_grid (width height : Z) (c : cell) : Prop :=
  0 <= fst c < width /\ 0 <= snd c < height.

(** [b] is one of the cells that lines 367 to 370 list around [a]. *)
Definition adjacent (width height : Z) (a b : cell) : Prop :=
  In b (neighbours8 width height (fst a) (snd a)).

(** [linked width height cells a b]: from [a], a cell of [cells], steps
    between adjacent cells that stay in [cells] lead to [b]. *)
Inductive linked (width height : Z) (cells : list cell) : cell -> cell -> Prop :=
| linked_here (a : cell) : In a cells -> linked width height cells a a
| linked_step (a b c : cell) :
    linked width height cells a b -> In c cells -> adjacent width height b c ->
    linked width height cells a c.

(** Lines 440 to 447 of [main_loop]: the two "reached" flags. *)
Definition reached_flags (self : CaveExplorer) (action_state : Z) : CaveExplorer :=
  let self :=
    if PlannerType_eqb (planner_type_ self) GO_TO_FIRST_ARTIFACT
       && (action_state =? GoalStatus.SUCCEEDED)
    then set_reached_first_artifact_ true self else self in
  if PlannerType_eqb (planner_type_ self) RETURN_HOME
     && (action_state =? GoalStatus.SUCCEEDED)
  then set_returned_home_ true self else self.

(** The passes through the loop body of a trace whose status is not
    ACTIVE. *)
Fixpoint sending_ticks (trace : list event) : nat :=
  match trace with
  | [] => 0
  | Tick action_state :: trace =>
      (if action_state =? GoalStatus.ACTIVE then 0 else 1) + sending_ticks trace
  | _ :: trace => sending_ticks trace
  end.

(** The object without what [image_callback] writes: [artifact_found_] and
    the published images. *)
Definition planning_view (s : CaveExplorer) : CaveExplorer :=
  mkCaveExplorer (localised_ s) false (grid_map_ s) (planner_type_ s)
    (reached_first_artifact_ s) (returned_home_ s) (reached_closest_frontier_ s)
    (finised_exploring s) (rotate_ s) (goal_counter_ s) (finished_exploring s)
    (tf_listener_ s) (move_base_action_client_ s) [].

Definition outcome_view (o : outcome) : outcome :=
  match o with
  | Looping s => Looping (planning_view s)
  | Exited s => Exited (planning_view s)
  | Crashed e => Crashed e
  | Stuck => Stuck
  end.

(** A trace without its image callbacks. *)
Fixpoint without_images (trace : list event) : list event :=
  match trace with
  | [] => []
  | ImageMsg _ :: trace => without_images trace
  | ev :: trace => ev :: without_images trace
  end.

(** ** Grids and poses used as concrete inputs *)

(** A single unknown cell: no frontier at all. *)
Definition grid_unknown : OccupancyGrid := mkOccupancyGrid 1 1 1 0 0 [-1].

(** Three free cells under a row of unknown ones: one small group. *)
Definition grid_small : OccupancyGrid :=
  mkOccupancyGrid 3 2 1 0 0 [0; 0; 0; -1; -1; -1].

(** A row of [n] free cells under a row of [n] unknown ones: one group of
    [n] frontier cells. *)
Definition grid_strip (n : nat) : OccupancyGrid :=
  mkOccupancyGrid n 2 1 0 0 (repeat 0 n ++ repeat (-1) n).

(** Two strips of 501 free cells, [x] in [0..500] and in [502..1002],
    separated by an occupied cell, under a row of unknown cells. *)
Definition grid_two_strips : OccupancyGrid :=
  mkOccupancyGrid 1003 2 1 0 0
    (repeat 0 501 ++ [100] ++ repeat 0 501 ++ repeat (-1) 1003).

(** The robot stands in the middle of the second strip. *)
Definition tf_far : Transform := mkTransform (752, 0, 0)%Q (0, 0, 0, 1)%Q.

(** The cells of the two strips, in the order the grouping visits them. *)
Definition strip_near : list cell := map (fun x => (x, 0)) (range 501).

Definition strip_far : list cell := map (fun x => (x + 502, 0)) (range 501).

(** * Properties *)

(** ** Comparisons and the two loops of wrap_angle *)

Lemma Qltb_lt (a b : Q) : Qltb a b = true <-> (a < b)%Q.
Proof.
  unfold Qltb. rewrite negb_true_iff. split; intro H.
  - apply Qnot_le_lt. intro L. apply Qle_bool_iff in L. congruence.
  - destruct (Qle_bool b a) eqn:E; [|reflexivity].
    apply Qle_bool_iff in E. exfalso. apply (Qlt_not_le _ _ H E).
Qed.

Lemma Qltb_ge (a b : Q) : Qltb a b = false <-> (b <= a)%Q.
Proof.
  unfold Qltb. rewrite negb_false_iff. apply Qle_bool_iff.
Qed.

Lemma two_pi_pos : (0 < two_pi)%Q.
Proof. reflexivity. Qed.

Lemma inject_Z_S (n : nat) :
  (inject_Z (Z.of_nat (S n)) == inject_Z (Z.of_nat n) + 1)%Q.
Proof. rewrite Nat2Z.inj_succ. unfold Z.succ. rewrite inject_Z_plus. reflexivity. Qed.

Lemma wrap_angle_up_spec (n : nat) : forall a : Q,
  (0 <= a + inject_Z (Z.of_nat n) * two_pi)%Q ->
  exists r, wrap_angle_up n a = Ok r /\ (0 <= r)%Q /\
            ((a < 0)%Q -> (r < two_pi)%Q) /\ ((0 <= a)%Q -> r = a).
Proof.
  induction n as [|n IH]; intros a Hn.
  - change (inject_Z (Z.of_nat 0)) with 0%Q in Hn.
    assert (Ha : (0 <= a)%Q) by lra.
    exists a. simpl. apply Qltb_ge in Ha. rewrite Ha.
    apply Qltb_ge in Ha. repeat split; auto. intro; lra.
  - simpl. destruct (Qltb a 0) eqn:E.
    + apply Qltb_lt in E. rewrite inject_Z_S in Hn.
      destruct (IH (a + two_pi)%Q) as (r & Hr & H0 & Hlt & Hge); [lra|].
      exists r. repeat split; auto.
      * intros _. destruct (Qlt_le_dec (a + two_pi) 0) as [L|L].
        -- auto.
        -- rewrite (Hge L). lra.
      * intro; lra.
    + apply Qltb_ge in E. exists a. repeat split; auto. intro; lra.
Qed.

Lemma wrap_angle_down_spec (n : nat) : forall a : Q,
  (0 <= a)%Q -> (a <= (inject_Z (Z.of_nat n) + 1) * two_pi)%Q ->
  exists r, wrap_angle_down n a = Ok r /\ (0 <= r)%Q /\ (r <= two_pi)%Q.
Proof.
  induction n as [|n IH]; intros a H0 Hn.
  - change (inject_Z (Z.of_nat 0)) with 0%Q in Hn.
    assert (Ha : (a <= two_pi)%Q) by lra.
    exists a. simpl. apply Qltb_ge in Ha. rewrite Ha. apply Qltb_ge in Ha. auto.
  - simpl. destruct (Qltb two_pi a) eqn:E.
    + apply Qltb_lt in E. rewrite inject_Z_S in Hn.
      apply IH; lra.
    + apply Qltb_ge in E. exists a. auto.
Qed.

Lemma wrap_fuel_covers (a : Q) :
  (Qabs a <= inject_Z (Z.of_nat (wrap_fuel a)) * two_pi)%Q.
Proof.
  unfold wrap_fuel. rewrite inject_Z_S.
  pose proof two_pi_pos as Hp.
  assert (Hq : (0 <= Qabs a / two_pi)%Q).
  { apply Qle_shift_div_l; [exact Hp|]. pose proof (Qabs_nonneg a). lra. }
  assert (Hf : 0 <= Qfloor (Qabs a / two_pi)).
  { change 0 with (Qfloor 0). apply Qfloor_resp_le. exact Hq. }
  rewrite Z2Nat.id by exact Hf.
  pose proof (Qlt_floor (Qabs a / two_pi)) as Hl.
  rewrite inject_Z_plus in Hl. change (inject_Z 1) with 1%Q in Hl.
  apply Qlt_le_weak.
  assert (E : (Qabs a == Qabs a / two_pi * two_pi)%Q).
  { field. intro Hz. rewrite Hz in Hp. discriminate. }
  apply (Qmult_lt_compat_r _ _ two_pi Hp) in Hl.
  set (t := (Qabs a / two_pi)%Q) in *.
  set (f := inject_Z (Qfloor t)) in *.
  lra.
Qed.

Lemma wrap_angle_total (angle : Q) :
  exists r, wrap_angle angle = Ok r /\ (0 <= r)%Q /\ (r <= two_pi)%Q.
Proof.
  unfold wrap_angle.
  pose proof (wrap_fuel_covers angle) as Hc.
  destruct (wrap_angle_up_spec (wrap_fuel angle) angle) as (r & Hr & H0 & _ & _).
  { pose proof (Qle_Qabs (- angle)) as Hq. rewrite Qabs_opp in Hq. lra. }
  rewrite Hr. cbn [bind].
  apply wrap_angle_down_spec; [exact H0|].
  pose proof (wrap_fuel_covers r) as Hc'. pose proof (Qle_Qabs r) as Hq.
  pose proof two_pi_pos. lra.
Qed.



(** ** image_callback *)

(** C10.  After [image_callback] the flag says whether the frame just
    handled has a detection, whatever it said before: a frame without
    detections clears a flag that an earlier frame had set. *)
Theorem image_callback_flag_follows_current_frame :
  (forall (self : CaveExplorer) (detections : list detection),
      artifact_found_ (image_callback self detections) = true
      <-> (0 < length detections)%nat) /\
  (forall (self : CaveExplorer) (d : detection) (ds : list detection),
      artifact_found_ (image_callback self (d :: ds)) = true /\
      artifact_found_ (image_callback (image_callback self (d :: ds)) []) = false).
Proof.
  split.
  - intros self [|d ds].
    + cbn. split; [discriminate | lia].
    + unfold image_callback. cbn [length].
      destruct (0 <? Z.of_nat (S (length ds))) eqn:E.
      * cbn. split; [lia | reflexivity].
      * apply Z.ltb_ge in E. lia.
  - intros self d ds. split; [|reflexivity].
    unfold image_callback. cbn [length].
    destruct (0 <? Z.of_nat (S (length ds))) eqn:E; [reflexivity|].
    apply Z.ltb_ge in E. lia.
Qed.

(** ** No goal while the current one is active *)

(** C8.  Called with the status ACTIVE, each of the six planners returns the
    object untouched, so nothing is added to the goals sent; and a pass
    through the loop body with that status leaves the sent goals as they
    were. *)
Theorem no_goal_sent_while_active :
  forall (math_cos math_sin math_acos : Q -> Q) (self : CaveExplorer),
    planner_to_frontiers math_cos math_sin self GoalStatus.ACTIVE = Ok self /\
    planner_return_home math_cos math_sin self GoalStatus.ACTIVE = Ok self /\
    planner_go_to_first_artifact math_cos math_sin self GoalStatus.ACTIVE = Ok self /\
    (forall rx ry rtheta,
        planner_random_walk math_cos math_sin rx ry rtheta self GoalStatus.ACTIVE
        = Ok self) /\
    (forall idx rtheta,
        planner_random_goal math_cos math_sin idx rtheta self GoalStatus.ACTIVE
        = Ok self) /\
    planner_move_forwards math_cos math_sin math_acos self GoalStatus.ACTIVE = Ok self /\
    (exists self' continue,
        main_loop_body math_cos math_sin math_acos self GoalStatus.ACTIVE
        = Ok (self', continue) /\
        move_base_action_client_ self' = move_base_action_client_ self /\
        goal_counter_ self' = goal_counter_ self).
Proof.
  intros math_cos math_sin math_acos self.
  repeat (split; [reflexivity || (intros; reflexivity)|]).
  unfold main_loop_body.
  change (GoalStatus.ACTIVE =? GoalStatus.SUCCEEDED) with false.
  rewrite !andb_false_r.
  destruct (finised_exploring self); cbn [negb].
  - destruct (returned_home_ self); cbn [negb].
    + exists self, false. auto.
    + eexists _, true. cbn. auto.
  - eexists _, true. cbn. auto.
Qed.

(** ** Frontier detection *)

Lemma cell_eqb_eq (a b : cell) : cell_eqb a b = true <-> a = b.
Proof.
  destruct a as [ax ay], b as [bx b_y]. unfold cell_eqb. cbn [fst snd].
  rewrite andb_true_iff, !Z.eqb_eq. split.
  - intros [-> ->]. reflexivity.
  - intros [= -> ->]. auto.
Qed.

Lemma py_in_In (c : cell) (l : list cell) : py_in c l = true <-> In c l.
Proof.
  induction l as [|d l IH]; cbn [py_in In].
  - split; [discriminate | contradiction].
  - rewrite orb_true_iff, cell_eqb_eq, IH. split; intros [H|H]; auto.
Qed.

Lemma in_range (n : nat) (x : Z) : In x (range n) <-> 0 <= x < Z.of_nat n.
Proof.
  unfold range. rewrite in_map_iff. split.
  - intros (k & <- & Hk). apply in_seq in Hk. lia.
  - intros Hx. exists (Z.to_nat x). split; [lia|]. apply in_seq. lia.
Qed.

Lemma NoDup_range (n : nat) : NoDup (range n).
Proof.
  unfold range. apply NoDup_map_NoDup_ForallPairs.
  - intros a b _ _ H. lia.
  - apply seq_NoDup.
Qed.

Lemma in_neighbours8 (width height x y nx ny : Z) :
  In (nx, ny) (neighbours8 width height x y) <->
  (nx, ny) <> (x, y) /\ Z.abs (nx - x) <= 1 /\ Z.abs (ny - y) <= 1 /\
  0 <= nx < width /\ 0 <= ny < height.
Proof.
  unfold neighbours8. rewrite in_flat_map. split.
  - intros (dx & Hdx & H). apply in_flat_map in H. destruct H as (dy & Hdy & H).
    destruct ((negb (dx =? 0) || negb (dy =? 0))
              && ((0 <=? x + dx) && (x + dx <? width))
              && ((0 <=? y + dy) && (y + dy <? height))) eqn:E; [|contradiction].
    destruct H as [H|[]]. injection H as <- <-.
    rewrite !andb_true_iff, orb_true_iff, !negb_true_iff, !Z.eqb_neq in E.
    rewrite !Z.leb_le, !Z.ltb_lt in E.
    cbn [In] in Hdx, Hdy.
    repeat split; try lia. intros [= H1 H2]. lia.
  - intros (Hne & Hx & Hy & Hbx & Hby).
    exists (nx - x). split.
    { cbn [In]. lia. }
    apply in_flat_map. exists (ny - y). split.
    { cbn [In]. lia. }
    replace (x + (nx - x)) with nx by lia. replace (y + (ny - y)) with ny by lia.
    assert (E : (negb (nx - x =? 0) || negb (ny - y =? 0)) = true).
    { apply orb_true_iff. rewrite !negb_true_iff, !Z.eqb_neq.
      destruct (Z.eq_dec nx x) as [->|]; [|left; lia].
      right. intro. apply Hne. f_equal. lia. }
    rewrite E.
    replace (0 <=? nx) with true by (symmetry; apply Z.leb_le; lia).
    replace (nx <? width) with true by (symmetry; apply Z.ltb_lt; lia).
    replace (0 <=? ny) with true by (symmetry; apply Z.leb_le; lia).
    replace (ny <? height) with true by (symmetry; apply Z.ltb_lt; lia).
    left. reflexivity.
Qed.

Lemma is_frontier_spec (width height : Z) (map_data : list Z) (x y : Z) :
  is_frontier width height map_data x y = true <->
  map_data_at width map_data x y = 0 /\
  exists nx ny,
    (nx, ny) <> (x, y) /\ Z.abs (nx - x) <= 1 /\ Z.abs (ny - y) <= 1 /\
    0 <= nx < width /\ 0 <= ny < height /\
    map_data_at width map_data nx ny = -1.
Proof.
  unfold is_frontier. rewrite andb_true_iff, Z.eqb_eq, existsb_exists.
  split; intros [H0 H]; split; auto.
  - destruct H as ([nx ny] & Hin & Hu). apply Z.eqb_eq in Hu.
    apply in_neighbours8 in Hin. exists nx, ny. tauto.
  - destruct H as (nx & ny & H). exists (nx, ny). split.
    + apply in_neighbours8. tauto.
    + apply Z.eqb_eq. tauto.
Qed.

(** Cells selected by a test, rows outermost. *)
Lemma in_scan (p : Z -> Z -> bool) (w h : nat) (x y : Z) :
  In (x, y)
     (flat_map (fun y => flat_map (fun x => if p x y then [(x, y)] else [])
                                  (range w)) (range h)) <->
  0 <= x < Z.of_nat w /\ 0 <= y < Z.of_nat h /\ p x y = true.
Proof.
  rewrite in_flat_map. split.
  - intros (y' & Hy & H). apply in_flat_map in H. destruct H as (x' & Hx & H).
    destruct (p x' y') eqn:E; [|contradiction].
    destruct H as [H|[]]. injection H as <- <-.
    apply in_range in Hx, Hy. auto.
  - intros (Hx & Hy & Hp). exists y. split; [apply in_range; exact Hy|].
    apply in_flat_map. exists x. split; [apply in_range; exact Hx|].
    rewrite Hp. left. reflexivity.
Qed.

Lemma NoDup_scan_row (p : Z -> bool) (y : Z) (xs : list Z) :
  NoDup xs ->
  NoDup (flat_map (fun x => if p x then [(x, y)] else []) xs).
Proof.
  induction 1 as [|x xs Hx Hnd IH]; cbn [flat_map]; [constructor|].
  destruct (p x); cbn [app]; [|exact IH].
  constructor; [|exact IH].
  intro Hin. apply in_flat_map in Hin. destruct Hin as (x' & Hx' & H).
  destruct (p x'); [|contradiction]. destruct H as [H|[]].
  injection H as ->. contradiction.
Qed.

Lemma NoDup_scan (p : Z -> Z -> bool) (xs ys : list Z) :
  NoDup xs -> NoDup ys ->
  NoDup (flat_map (fun y => flat_map (fun x => if p x y then [(x, y)] else []) xs) ys).
Proof.
  intros Hxs. induction 1 as [|y ys Hy Hnd IH]; cbn [flat_map]; [constructor|].
  apply NoDup_app; [ | exact IH | ].
  - apply (NoDup_scan_row (fun x => p x y)). exact Hxs.
  - intros [cx cy] H1 H2.
    apply in_flat_map in H1. destruct H1 as (x1 & _ & H1).
    destruct (p x1 y); [|contradiction]. destruct H1 as [H1|[]].
    injection H1 as <- <-.
    apply in_flat_map in H2. destruct H2 as (y2 & Hy2 & H2).
    apply in_flat_map in H2. destruct H2 as (x2 & _ & H2).
    destruct (p x2 y2); [|contradiction]. destruct H2 as [H2|[]].
    injection H2 as <- <-. contradiction.
Qed.

Lemma map_scan {B : Type} (f : cell -> B) (p : Z -> Z -> bool) (xs ys : list Z) :
  flat_map (fun y => flat_map (fun x => if p x y then [f (x, y)] else []) xs) ys
  = map f (flat_map (fun y => flat_map (fun x => if p x y then [(x, y)] else []) xs) ys).
Proof.
  induction ys as [|y ys IH]; cbn [flat_map map]; [reflexivity|].
  rewrite map_app, IH. f_equal. clear IH.
  induction xs as [|x xs IHx]; cbn [flat_map map]; [reflexivity|].
  rewrite map_app, IHx. destruct (p x y); reflexivity.
Qed.

Lemma detect_frontiers_cells (g : OccupancyGrid) (map_data : list Z) :
  detect_frontiers g map_data = map (cell_to_world g) (frontier_cells g map_data).
Proof.
  unfold detect_frontiers, frontier_cells.
  exact (map_scan (cell_to_world g) _ _ _).
Qed.

Lemma NoDup_frontier_cells (g : OccupancyGrid) (map_data : list Z) :
  NoDup (frontier_cells g map_data).
Proof. apply NoDup_scan; apply NoDup_range. Qed.

Lemma in_frontier_cells (g : OccupancyGrid) (map_data : list Z) (x y : Z) :
  In (x, y) (frontier_cells g map_data) <->
  0 <= x < Z.of_nat (info_width g) /\ 0 <= y < Z.of_nat (info_height g) /\
  is_frontier (Z.of_nat (info_width g)) (Z.of_nat (info_height g)) map_data x y = true.
Proof. unfold frontier_cells. apply in_scan. Qed.

(** C6.  [detect_frontiers] appends the world coordinates of exactly the
    cells that are free (0) and have an unknown (-1) cell among their
    in-bounds eight neighbours, each cell once; a grid without a free cell
    gives the empty list. *)
Theorem detect_frontiers_exact :
  forall (g : OccupancyGrid) (map_data : list Z),
    let width := Z.of_nat (info_width g) in
    let height := Z.of_nat (info_height g) in
    detect_frontiers g map_data
    = map (cell_to_world g) (frontier_cells g map_data) /\
    NoDup (frontier_cells g map_data) /\
    (forall x y : Z,
        In (x, y) (frontier_cells g map_data) <->
        0 <= x < width /\ 0 <= y < height /\
        map_data_at width map_data x y = 0 /\
        exists nx ny,
          (nx, ny) <> (x, y) /\ Z.abs (nx - x) <= 1 /\ Z.abs (ny - y) <= 1 /\
          0 <= nx < width /\ 0 <= ny < height /\
          map_data_at width map_data nx ny = -1) /\
    ((forall x y : Z,
         0 <= x < width -> 0 <= y < height ->
         map_data_at width map_data x y <> 0) ->
     detect_frontiers g map_data = []).
Proof.
  intros g map_data width height.
  assert (Hin : forall x y : Z,
             In (x, y) (frontier_cells g map_data) <->
             0 <= x < width /\ 0 <= y < height /\
             map_data_at width map_data x y = 0 /\
             exists nx ny,
               (nx, ny) <> (x, y) /\ Z.abs (nx - x) <= 1 /\ Z.abs (ny - y) <= 1 /\
               0 <= nx < width /\ 0 <= ny < height /\
               map_data_at width map_data nx ny = -1).
  { intros x y. rewrite in_frontier_cells, is_frontier_spec. tauto. }
  split; [apply detect_frontiers_cells|].
  split; [apply NoDup_frontier_cells|].
  split; [exact Hin|].
  intros Hfree. rewrite detect_frontiers_cells.
  destruct (frontier_cells g map_data) as [|[x y] l]; [reflexivity|].
  exfalso. destruct (proj1 (Hin x y)) as (Hx & Hy & H0 & _).
  - left. reflexivity.
  - exact (Hfree x y Hx Hy H0).
Qed.

(** The last part of [detect_frontiers_exact] on the grid made of one
    unknown cell. *)
Lemma detect_frontiers_exact_witness :
  detect_frontiers grid_unknown (data grid_unknown) = [].
Proof.
  apply (proj2 (proj2 (proj2 (detect_frontiers_exact grid_unknown (data grid_unknown))))).
  intros x y Hx Hy. cbn in Hx, Hy.
  assert (x = 0) as -> by lia. assert (y = 0) as -> by lia.
  cbn. discriminate.
Defined.

(** ** Grouping of the frontier cells *)

(** Permutations of concatenations, up to the order of the pieces. *)
Ltac perm_app :=
  repeat match goal with
         | |- context [?x :: ?l] =>
             lazymatch l with
             | [] => fail
             | _ => change (x :: l) with ([x] ++ l)
             end
         end;
  aac_reflexivity.

Open Scope Z_scope.

Lemma py_in_false (c : cell) (l : list cell) : ~ In c l -> py_in c l = false.
Proof.
  intro H. destruct (py_in c l) eqn:E; [|reflexivity].
  apply py_in_In in E. contradiction.
Qed.

Lemma py_remove_perm (c : cell) (l : list cell) :
  In c l -> Permutation l (c :: py_remove c l).
Proof.
  induction l as [|d l IH]; cbn [In py_remove]; [contradiction|].
  intros H. destruct (cell_eqb c d) eqn:E.
  - apply cell_eqb_eq in E. subst d. reflexivity.
  - destruct H as [H|H].
    + subst d. assert (cell_eqb c c = true) by (apply cell_eqb_eq; reflexivity).
      congruence.
    + rewrite perm_swap. apply perm_skip. apply IH. exact H.
Qed.

Lemma take_neighbours_spec (neighbours : list cell) :
  forall queue to_visit queue' to_visit',
    take_neighbours neighbours queue to_visit = (queue', to_visit') ->
    exists extra,
      to_visit' = to_visit ++ extra /\ Permutation (queue' ++ extra) queue.
Proof.
  induction neighbours as [|n ns IH]; intros q tv q' tv' H; cbn [take_neighbours] in H.
  - injection H as <- <-. exists []. rewrite !app_nil_r. auto.
  - destruct (py_in n q) eqn:E.
    + apply IH in H. destruct H as (extra & -> & Hp).
      exists (n :: extra). rewrite <- app_assoc. split; [reflexivity|].
      apply py_in_In in E. apply py_remove_perm in E.
      rewrite E. rewrite <- Hp. symmetry. apply Permutation_middle.
    + apply IH in H. exact H.
Qed.

Lemma visit_group_spec (width height : Z) (fuel : nat) :
  forall to_visit queue visited current_group,
    NoDup (queue ++ to_visit ++ visited) ->
    (length to_visit + length queue <= fuel)%nat ->
    exists queue' added,
      visit_group fuel width height to_visit queue visited current_group
      = Ok (queue', visited ++ added, current_group ++ added) /\
      Permutation (queue' ++ added) (queue ++ to_visit) /\
      incl to_visit added.
Proof.
  induction fuel as [|fuel IH]; intros tv q vis grp Hnd Hlen.
  - destruct tv as [|f tv]; [|cbn in Hlen; lia].
    exists q, []. cbn. rewrite !app_nil_r. repeat split; auto. apply incl_refl.
  - destruct tv as [|f tv].
    + exists q, []. cbn. rewrite !app_nil_r. repeat split; auto. apply incl_refl.
    + cbn [visit_group].
      assert (Hf : ~ In f vis).
      { intro Hin. apply NoDup_app_remove_l in Hnd. cbn in Hnd.
        apply NoDup_cons_iff in Hnd. destruct Hnd as [Hn _]. apply Hn.
        apply in_or_app. right. exact Hin. }
      rewrite (py_in_false _ _ Hf).
      destruct (take_neighbours (neighbours8 width height (fst f) (snd f)) q tv)
        as [q2 tv2] eqn:Et.
      apply take_neighbours_spec in Et. destruct Et as (extra & -> & Hp).
      destruct (IH (tv ++ extra) q2 (vis ++ [f]) (grp ++ [f])) as (q' & added & Hv & Hperm & Hincl).
      * eapply Permutation_NoDup; [|exact Hnd].
        rewrite <- Hp. perm_app.
      * apply Permutation_length in Hp. rewrite !length_app in *.
        cbn [length] in Hlen. lia.
      * exists q', (f :: added). rewrite Hv, <- !app_assoc. cbn [app].
        split; [reflexivity|]. split.
        -- transitivity ([f] ++ (q' ++ added)); [perm_app|].
           rewrite Hperm, <- Hp. perm_app.
        -- intros c [<-|Hc]; [left; reflexivity|].
           right. apply Hincl. apply in_or_app. left. exact Hc.
Qed.

Lemma group_frontiers_spec (width height : Z) (fuel : nat) :
  forall queue visited grouped_frontiers groups,
    NoDup (queue ++ visited) ->
    (length queue <= fuel)%nat ->
    exists formed,
      group_frontiers fuel width height queue visited grouped_frontiers groups
      = Ok (grouped_frontiers ++ filter kept formed, groups ++ formed) /\
      Permutation (concat formed) queue /\
      Forall (fun group => group <> []) formed.
Proof.
  induction fuel as [|fuel IH]; intros q vis grouped groups Hnd Hlen.
  - destruct q as [|c q]; [|cbn in Hlen; lia].
    exists []. cbn. rewrite !app_nil_r. auto.
  - destruct q as [|c q].
    + exists []. cbn. rewrite !app_nil_r. auto.
    + cbn [group_frontiers].
      assert (Hc : ~ In c vis).
      { intro Hin. cbn in Hnd. apply NoDup_cons_iff in Hnd.
        destruct Hnd as [Hn _]. apply Hn. apply in_or_app. right. exact Hin. }
      rewrite (py_in_false _ _ Hc).
      destruct (visit_group_spec width height (S (length q)) [c] q vis [])
        as (q' & added & Hv & Hperm & Hincl).
      { eapply Permutation_NoDup; [|exact Hnd]. perm_app. }
      { cbn. lia. }
      rewrite Hv. cbn [bind app].
      assert (Hadd : In c added) by (apply Hincl; left; reflexivity).
      destruct (IH q' (vis ++ added)
                   (if kept added
                    then grouped ++ [added] else grouped)
                   (groups ++ [added])) as (formed & Hg & Hp & Hne).
      * eapply Permutation_NoDup; [|exact Hnd].
        transitivity ((q' ++ added) ++ vis); [|perm_app].
        rewrite Hperm. perm_app.
      * apply Permutation_length in Hperm. rewrite !length_app in Hperm.
        cbn [length] in Hperm, Hlen.
        destruct added; [contradiction|]. cbn [length] in Hperm. lia.
      * exists (added :: formed). rewrite Hg. cbn [filter concat].
                split; [|split].
        -- destruct (kept added); rewrite <- !app_assoc; reflexivity.
        -- rewrite Hp. transitivity (q' ++ added); [perm_app|].
           rewrite Hperm. perm_app.
        -- constructor; [|exact Hne]. intros ->. contradiction.
Qed.

Lemma py_int_inject (q : Q) (x : Z) : (q == inject_Z x)%Q -> py_int q = x.
Proof.
  unfold Qeq, py_int. cbn [inject_Z Qnum Qden]. intro H.
  rewrite Z.mul_1_r in H. rewrite H. apply Z.quot_mul. discriminate.
Qed.

Lemma frontier_queue_cells (g : OccupancyGrid) (cells : list cell) :
  ~ (info_resolution g == 0)%Q ->
  frontier_queue g (map (cell_to_world g) cells) = Ok cells.
Proof.
  intro Hres. induction cells as [|[x y] cells IH]; [reflexivity|].
  cbn [map cell_to_world fst snd frontier_queue].
  unfold py_div.
  assert (E : Qeq_bool (info_resolution g) 0 = false).
  { destruct (Qeq_bool (info_resolution g) 0) eqn:E; [|reflexivity].
    apply Qeq_bool_iff in E. contradiction. }
  rewrite E. cbn [bind]. rewrite IH. cbn [bind].
  rewrite (py_int_inject _ x), (py_int_inject _ y); [reflexivity| |].
  - field. exact Hres.
  - field. exact Hres.
Qed.

Lemma group_nearby_frontiers_spec (g : OccupancyGrid) (map_data : list Z) :
  ~ (info_resolution g == 0)%Q ->
  exists groups,
    group_nearby_frontiers g (detect_frontiers g map_data)
    = Ok (filter kept groups, groups) /\
    Permutation (concat groups) (frontier_cells g map_data) /\
    Forall (fun group => group <> []) groups.
Proof.
  intro Hres. unfold group_nearby_frontiers.
  rewrite detect_frontiers_cells, (frontier_queue_cells _ _ Hres). cbn [bind].
  destruct (group_frontiers_spec (Z.of_nat (info_width g)) (Z.of_nat (info_height g))
              (length (frontier_cells g map_data))
              (frontier_cells g map_data) [] [] [])
    as (formed & Hg & Hp & Hne).
  - rewrite app_nil_r. apply NoDup_frontier_cells.
  - apply Nat.le_refl.
  - exists formed. cbn [app] in Hg. auto.
Qed.






(** C4 (as the code has it).  A group is kept exactly when it has more than
    500 cells: the list the planner chooses from is the list of the groups
    formed, in order, without those of 500 cells or fewer. *)
Theorem group_kept_iff_more_than_500 :
  forall (g : OccupancyGrid) (map_data : list Z),
    ~ (info_resolution g == 0)%Q ->
    exists grouped_frontiers groups,
      group_nearby_frontiers g (detect_frontiers g map_data)
      = Ok (grouped_frontiers, groups) /\
      grouped_frontiers
      = filter (fun group => (500 <? length group)%nat) groups /\
      (forall group : list cell,
          In group grouped_frontiers <->
          In group groups /\ (500 < length group)%nat).
Proof.
  intros g map_data Hres.
  destruct (group_nearby_frontiers_spec g map_data Hres) as (groups & Hg & _ & _).
  exists (filter kept groups), groups.
  split; [exact Hg|]. split; [reflexivity|].
  intro group. rewrite filter_In. unfold kept. rewrite Nat.ltb_lt. tauto.
Qed.

(** [group_kept_iff_more_than_500] on the strip of 501 frontier cells. *)
Lemma group_kept_iff_more_than_500_witness :
  exists grouped_frontiers groups,
    group_nearby_frontiers (grid_strip 501)
      (detect_frontiers (grid_strip 501) (data (grid_strip 501)))
    = Ok (grouped_frontiers, groups) /\
    grouped_frontiers
    = filter (fun group => (500 <? length group)%nat) groups /\
    (forall group : list cell,
        In group grouped_frontiers <->
        In group groups /\ (500 < length group)%nat).
Proof.
  apply (group_kept_iff_more_than_500 (grid_strip 501) (data (grid_strip 501))).
  cbn. discriminate.
Defined.

(** C4 as stated fails: on the strip of 500 frontier cells the grouping step
    forms one group of exactly 500 cells and keeps none. *)
Lemma group_of_500_cells_discarded :
  exists group,
    group_nearby_frontiers (grid_strip 500)
      (detect_frontiers (grid_strip 500) (data (grid_strip 500)))
    = Ok ([], [group]) /\
    length group = 500%nat.
Proof.
  eexists. split.
  - vm_compute. reflexivity.
  - vm_compute. reflexivity.
Qed.

(** ** Choice of the goal *)








(** C7 fails on the code.  On the grid of two strips with the robot in the
    middle of the far one: both strips are kept, the robot is at (752, 0),
    the centroid of the far strip is nearer to the robot than that of the
    near one, and the one goal sent is the centroid of the near strip, the
    nearest to (0, 0). *)
Theorem planner_to_frontiers_goal_is_nearest_to_origin :
  forall (math_cos math_sin math_acos : Q -> Q),
    let self := CaveExplorer_init tf_far grid_two_strips in
    group_nearby_frontiers grid_two_strips
      (detect_frontiers grid_two_strips (data grid_two_strips))
    = Ok ([strip_near; strip_far], [strip_near; strip_far]) /\
    (exists theta, get_pose_2d math_acos self = Ok (mkPose2D 752 0 theta)) /\
    dist_ltb (centroid_dist grid_two_strips 752 0 strip_far)
             (centroid_dist grid_two_strips 752 0 strip_near) = true /\
    world_centroid grid_two_strips strip_near = Ok (125250 # 501, 0 # 501)%Q /\
    planner_to_frontiers math_cos math_sin self GoalStatus.LOST
    = Ok (send_pose_goal math_cos math_sin self (mkPose2D (125250 # 501) (0 # 501) 0)).
Proof.
  intros math_cos math_sin math_acos self.
  split; [vm_compute; reflexivity|].
  split.
  { unfold get_pose_2d, self. cbn [tf_listener_ CaveExplorer_init tf_far trans rot].
    destruct (wrap_angle_total (2 * math_acos 1)%Q) as (r & Hr & _).
    exists r. cbn. cbn in Hr. rewrite Hr. reflexivity. }
  split; [vm_compute; reflexivity|].
  split; [vm_compute; reflexivity|].
  vm_compute. reflexivity.
Qed.

(** ** planner_to_frontiers as a whole *)

(** The branch of line 425 is dead: when the planner returns, it has either
    done nothing (status ACTIVE) or sent one goal. *)
Lemma planner_to_frontiers_cases (math_cos math_sin : Q -> Q)
  (self : CaveExplorer) (action_state : Z) :
  match planner_to_frontiers math_cos math_sin self action_state with
  | Ok self' =>
      (action_state = GoalStatus.ACTIVE /\ self' = self) \/
      (action_state <> GoalStatus.ACTIVE /\
       exists pose_2d, self' = send_pose_goal math_cos math_sin self pose_2d)
  | Raise _ => action_state <> GoalStatus.ACTIVE
  | Timeout => action_state <> GoalStatus.ACTIVE
  end.
Proof.
  unfold planner_to_frontiers.
  destruct (action_state =? GoalStatus.ACTIVE) eqn:Ea; cbn [negb].
  - apply Z.eqb_eq in Ea. auto.
  - apply Z.eqb_neq in Ea.
    destruct (grid_map_ self) as [g|]; [|exact Ea].
    destruct (reshape g) as [map_data| |]; cbn [bind]; [|exact Ea|exact Ea].
    destruct (detect_frontiers g map_data) as [|w ws] eqn:Ef; cbn [log_detected bind];
      [exact Ea|].
    destruct (group_nearby_frontiers g (w :: ws)) as [[grouped groups]| |];
      cbn [bind]; [|exact Ea|exact Ea].
    destruct (find_closest g (pose2d_x Pose2D_new) (pose2d_y Pose2D_new) grouped None Inf)
      as [[group|]| |]; cbn [bind]; try exact Ea.
    destruct (world_centroid g group) as [[wx wy]| |]; cbn [bind]; try exact Ea.
    right. split; [exact Ea|]. eexists. reflexivity.
Qed.

(** On a well-shaped grid without frontier cells the planner raises at the
    log line, whatever the status (other than ACTIVE). *)
Lemma planner_to_frontiers_no_frontier (math_cos math_sin : Q -> Q)
  (self : CaveExplorer) (g : OccupancyGrid) (action_state : Z) :
  grid_map_ self = Some g ->
  action_state <> GoalStatus.ACTIVE ->
  length (data g) = (info_height g * info_width g)%nat ->
  frontier_cells g (data g) = [] ->
  planner_to_frontiers math_cos math_sin self action_state = Raise ValueError.
Proof.
  intros Hg Ha Hlen Hf. unfold planner_to_frontiers.
  apply Z.eqb_neq in Ha. rewrite Ha, Hg. cbn [negb].
  unfold reshape. apply Nat.eqb_eq in Hlen. rewrite Hlen. cbn [bind].
  rewrite detect_frontiers_cells, Hf. reflexivity.
Qed.

(** With frontier cells but no group of more than 500 of them, the planner
    raises at line 405. *)
Lemma planner_to_frontiers_no_kept_group (math_cos math_sin : Q -> Q)
  (self : CaveExplorer) (g : OccupancyGrid) (action_state : Z) :
  grid_map_ self = Some g ->
  action_state <> GoalStatus.ACTIVE ->
  length (data g) = (info_height g * info_width g)%nat ->
  frontier_cells g (data g) <> [] ->
  forall groups,
    group_nearby_frontiers g (detect_frontiers g (data g)) = Ok ([], groups) ->
    planner_to_frontiers math_cos math_sin self action_state = Raise TypeError.
Proof.
  intros Hg Ha Hlen Hf groups Hgroup. unfold planner_to_frontiers.
  apply Z.eqb_neq in Ha. rewrite Ha, Hg. cbn [negb].
  unfold reshape. apply Nat.eqb_eq in Hlen. rewrite Hlen. cbn [bind].
  rewrite Hgroup.
  destruct (detect_frontiers g (data g)) as [|w ws] eqn:Ef.
  - rewrite detect_frontiers_cells in Ef. apply map_eq_nil in Ef. contradiction.
  - reflexivity.
Qed.

(** C3 fails on the code.  With a grid that has no frontier cell the planner
    raises ValueError (line 341); with frontier cells but no group of more
    than 500 of them it raises TypeError (line 405).  Neither a goal nor the
    end of the exploration comes out. *)
Theorem planner_to_frontiers_raises_on_degenerate_input :
  forall (math_cos math_sin : Q -> Q) (tf : Transform),
    planner_to_frontiers math_cos math_sin
      (CaveExplorer_init tf grid_unknown) GoalStatus.LOST
    = Raise ValueError /\
    planner_to_frontiers math_cos math_sin
      (CaveExplorer_init tf grid_small) GoalStatus.LOST
    = Raise TypeError.
Proof.
  intros math_cos math_sin tf. split.
  - apply (planner_to_frontiers_no_frontier _ _ _ grid_unknown);
      [reflexivity | discriminate | reflexivity | reflexivity].
  - apply (planner_to_frontiers_no_kept_group _ _ _ grid_small)
      with (groups := [[(0, 0); (1, 0); (2, 0)]]);
      [reflexivity | discriminate | reflexivity | discriminate | reflexivity].
Qed.

(** ** The fuel is enough *)

Lemma frontier_queue_zero_resolution (g : OccupancyGrid) (frontiers : list (Q * Q)) :
  (info_resolution g == 0)%Q ->
  frontier_queue g frontiers
  = match frontiers with [] => Ok [] | _ :: _ => Raise ZeroDivisionError end.
Proof.
  intro Hres. destruct frontiers as [|[wx wy] rest]; [reflexivity|].
  cbn [frontier_queue]. unfold py_div.
  apply Qeq_bool_iff in Hres. rewrite Hres. reflexivity.
Qed.

Lemma group_nearby_frontiers_returns (g : OccupancyGrid) (map_data : list Z) :
  group_nearby_frontiers g (detect_frontiers g map_data) <> Timeout.
Proof.
  destruct (Qeq_bool (info_resolution g) 0) eqn:E.
  - apply Qeq_bool_iff in E. unfold group_nearby_frontiers.
    rewrite (frontier_queue_zero_resolution _ _ E).
    destruct (detect_frontiers g map_data); cbn; discriminate.
  - assert (Hres : ~ (info_resolution g == 0)%Q).
    { intro H. apply Qeq_bool_iff in H. congruence. }
    destruct (group_nearby_frontiers_spec g map_data Hres) as (groups & -> & _).
    discriminate.
Qed.

Lemma find_closest_returns (g : OccupancyGrid) (robot_x robot_y : Q)
  (grouped_frontiers : list (list cell)) :
  forall closest min_distance,
    find_closest g robot_x robot_y grouped_frontiers closest min_distance <> Timeout.
Proof.
  induction grouped_frontiers as [|group rest IH]; intros closest m; cbn [find_closest].
  - discriminate.
  - unfold world_centroid, py_mean.
    destruct (length (map fst group) =? 0)%nat; cbn [bind]; [discriminate|].
    destruct (length (map snd group) =? 0)%nat; cbn [bind]; [discriminate|].
    match goal with |- context [if ?b then _ else _] => destruct b end; apply IH.
Qed.

Lemma planner_to_frontiers_returns (math_cos math_sin : Q -> Q)
  (self : CaveExplorer) (action_state : Z) :
  planner_to_frontiers math_cos math_sin self action_state <> Timeout.
Proof.
  unfold planner_to_frontiers.
  destruct (negb (action_state =? GoalStatus.ACTIVE)); [|discriminate].
  destruct (grid_map_ self) as [g|]; [|discriminate].
  unfold reshape.
  destruct (length (data g) =? info_height g * info_width g)%nat; cbn [bind];
    [|discriminate].
  pose proof (group_nearby_frontiers_returns g (data g)) as Hg.
  destruct (detect_frontiers g (data g)) as [|w ws]; cbn [log_detected bind];
    [discriminate|].
  destruct (group_nearby_frontiers g (w :: ws)) as [[grouped groups]| |];
    cbn [bind]; [|discriminate|contradiction].
  pose proof (find_closest_returns g (pose2d_x Pose2D_new) (pose2d_y Pose2D_new)
                grouped None Inf) as Hf.
  destruct (find_closest g (pose2d_x Pose2D_new) (pose2d_y Pose2D_new) grouped None Inf)
    as [[group|]| |]; cbn [bind]; try discriminate; [|contradiction].
  unfold world_centroid, py_mean.
  destruct (length (map fst group) =? 0)%nat; cbn [bind]; [discriminate|].
  destruct (length (map snd group) =? 0)%nat; cbn [bind]; discriminate.
Qed.

Lemma get_pose_2d_returns (math_acos : Q -> Q) (self : CaveExplorer) :
  get_pose_2d math_acos self <> Timeout.
Proof.
  unfold get_pose_2d.
  destruct (tf_listener_ self) as [[[t0 t1] t2] [[[qx qy] qz] qw]].
  cbn [trans rot]. unfold py_acos.
  destruct (Qltb qw (-1) || Qltb 1 qw).
  - destruct (Qle_bool 0 qz); cbn [bind]; discriminate.
  - destruct (Qle_bool 0 qz); cbn [bind].
    + destruct (wrap_angle_total (2 * math_acos qw)%Q) as (r & -> & _).
      cbn [bind]. discriminate.
    + destruct (wrap_angle_total (-2 * math_acos qw)%Q) as (r & -> & _).
      cbn [bind]. discriminate.
Qed.

Lemma main_loop_body_returns (math_cos math_sin math_acos : Q -> Q)
  (self : CaveExplorer) (action_state : Z) :
  main_loop_body math_cos math_sin math_acos self action_state <> Timeout.
Proof.
  unfold main_loop_body. cbv zeta.
  match goal with
  | |- context [if negb (finised_exploring ?s) then _ else _] =>
      destruct (negb (finised_exploring s));
      [|destruct (negb (returned_home_ s))]
  end; cbn [planner_type_ set_planner_type_]; try discriminate.
  - match goal with
    | |- context [planner_to_frontiers ?c ?s ?x ?a] =>
        pose proof (planner_to_frontiers_returns c s x a) as H;
        destruct (planner_to_frontiers c s x a)
    end; cbn [bind]; [discriminate | discriminate | contradiction].
  - unfold planner_return_home.
    destruct (negb (action_state =? GoalStatus.ACTIVE)); cbn [bind]; discriminate.
Qed.

Lemma main_loop_never_stuck (math_cos math_sin math_acos : Q -> Q)
  (trace : list event) :
  forall self : CaveExplorer,
    main_loop math_cos math_sin math_acos trace self <> Stuck.
Proof.
  induction trace as [|ev trace IH]; intro self; cbn [main_loop]; [discriminate|].
  destruct ev as [action_state | m | d | tf | ]; try apply IH; [|discriminate].
  pose proof (main_loop_body_returns math_cos math_sin math_acos self action_state) as H.
  destruct (main_loop_body math_cos math_sin math_acos self action_state)
    as [[self' [|]]| |]; [apply IH | discriminate | discriminate | contradiction].
Qed.


(** ** main_loop *)

Lemma exploring_body (math_cos math_sin math_acos : Q -> Q)
  (self : CaveExplorer) (action_state : Z) :
  exploring self ->
  match main_loop_body math_cos math_sin math_acos self action_state with
  | Ok (self', continue) => continue = true /\ exploring self'
  | Raise _ => True
  | Timeout => True
  end.
Proof.
  intros (Hf & Hr & Hp). unfold main_loop_body.
  assert (E1 : PlannerType_eqb (planner_type_ self) GO_TO_FIRST_ARTIFACT = false)
    by (destruct Hp as [-> | ->]; reflexivity).
  assert (E2 : PlannerType_eqb (planner_type_ self) RETURN_HOME = false)
    by (destruct Hp as [-> | ->]; reflexivity).
  cbv zeta. rewrite E1. cbn [andb]. rewrite E2. cbn [andb]. rewrite Hf. cbn [negb planner_type_ set_planner_type_].
  pose proof (planner_to_frontiers_cases math_cos math_sin
                (set_planner_type_ FRONTIER_EXPLORER self) action_state) as Hc.
  destruct (planner_to_frontiers math_cos math_sin
              (set_planner_type_ FRONTIER_EXPLORER self) action_state)
    as [self'| |]; cbn [bind]; auto.
  split; [reflexivity|].
  destruct Hc as [[_ ->] | [_ [pose_2d ->]]]; repeat split; cbn; auto.
Qed.

Lemma exploring_image_callback (self : CaveExplorer) (detections : list detection) :
  exploring self -> exploring (image_callback self detections).
Proof.
  intro Hs. unfold image_callback.
  destruct (0 <? Z.of_nat (length detections)); exact Hs.
Qed.

Lemma exploring_main_loop (math_cos math_sin math_acos : Q -> Q)
  (trace : list event) :
  forall self : CaveExplorer,
    exploring self ->
    match main_loop math_cos math_sin math_acos trace self with
    | Looping s => exploring s
    | Exited s => exploring s /\ In Shutdown trace
    | Crashed _ => True
    | Stuck => True
    end.
Proof.
  induction trace as [|ev trace IH]; intros self Hs; cbn [main_loop].
  - exact Hs.
  - destruct ev as [action_state | m | d | tf | ].
    + pose proof (exploring_body math_cos math_sin math_acos self action_state Hs) as Hb.
      destruct (main_loop_body math_cos math_sin math_acos self action_state)
        as [[self' continue]| |]; auto.
      destruct Hb as [-> Hs'].
      specialize (IH self' Hs').
      destruct (main_loop math_cos math_sin math_acos trace self'); auto.
      destruct IH. split; [assumption | right; assumption].
    + specialize (IH (map_callback self m) Hs).
      destruct (main_loop math_cos math_sin math_acos trace (map_callback self m)); auto.
      destruct IH. split; [assumption | right; assumption].
    + specialize (IH (image_callback self d) (exploring_image_callback self d Hs)).
      destruct (main_loop math_cos math_sin math_acos trace (image_callback self d)); auto.
      destruct IH. split; [assumption | right; assumption].
    + specialize (IH (set_tf_listener_ tf self) Hs).
      destruct (main_loop math_cos math_sin math_acos trace (set_tf_listener_ tf self)); auto.
      destruct IH. split; [assumption | right; assumption].
    + split; [exact Hs | left; reflexivity].
Qed.

(** C2 fails on the code.  From the object that [__init__] builds, along any
    trace of passes and callbacks, the loop is never in RETURN_HOME: as long
    as it runs the flag [finised_exploring] it tests is false and the
    planner is the frontier explorer, and it only leaves on shutdown.  A
    pass over a grid without frontiers ends the loop with a ValueError, and
    line 425 writes [finished_exploring], which the loop does not read. *)
Theorem main_loop_never_returns_home :
  forall (math_cos math_sin math_acos : Q -> Q) (tf : Transform),
    (forall (g : OccupancyGrid) (trace : list event),
        match main_loop math_cos math_sin math_acos trace (CaveExplorer_init tf g) with
        | Looping s =>
            finised_exploring s = false /\ planner_type_ s <> RETURN_HOME
        | Exited s =>
            finised_exploring s = false /\ planner_type_ s <> RETURN_HOME /\
            returned_home_ s = false /\ In Shutdown trace
        | Crashed _ => True
        | Stuck => True
        end) /\
    main_loop math_cos math_sin math_acos [Tick GoalStatus.LOST]
      (CaveExplorer_init tf grid_unknown)
    = Crashed ValueError /\
    (forall self : CaveExplorer,
        finised_exploring (set_finished_exploring true self)
        = finised_exploring self).
Proof.
  intros math_cos math_sin math_acos tf. split; [|split].
  - intros g trace.
    pose proof (exploring_main_loop math_cos math_sin math_acos trace
                  (CaveExplorer_init tf g)) as H.
    assert (Hi : exploring (CaveExplorer_init tf g)).
    { repeat split. left. reflexivity. }
    specialize (H Hi).
    destruct (main_loop math_cos math_sin math_acos trace (CaveExplorer_init tf g))
      as [s | s | |]; auto.
    + destruct H as (Hf & _ & Hp). split; [exact Hf|].
      destruct Hp as [-> | ->]; discriminate.
    + destruct H as ((Hf & Hr & Hp) & Hsh). repeat split; auto.
      destruct Hp as [-> | ->]; discriminate.
  - vm_compute. reflexivity.
  - intro self. reflexivity.
Qed.

(** C1 fails on the code.  [get_pose_2d] answers the translation of the
    transform, but the planner never reads the transform: with another one
    in [tf_listener_] it does the same, sends the same goal included, and
    only the stored transform differs.  The pose it measures from is the
    fresh [Pose2D()], all zeros. *)
Theorem planner_to_frontiers_ignores_robot_pose :
  forall (math_cos math_sin math_acos : Q -> Q) (self : CaveExplorer)
         (tf : Transform) (action_state : Z),
    planner_to_frontiers math_cos math_sin (set_tf_listener_ tf self) action_state
    = match planner_to_frontiers math_cos math_sin self action_state with
      | Ok self' => Ok (set_tf_listener_ tf self')
      | Raise e => Raise e
      | Timeout => Timeout
      end /\
    match get_pose_2d math_acos (set_tf_listener_ tf self) with
    | Ok pose =>
        pose2d_x pose = fst (fst (trans tf)) /\
        pose2d_y pose = snd (fst (trans tf))
    | Raise _ => True
    | Timeout => False
    end.
Proof.
  intros math_cos math_sin math_acos self tf action_state. split.
  - unfold planner_to_frontiers.
    cbn [grid_map_ set_tf_listener_].
    destruct (action_state =? GoalStatus.ACTIVE); cbn [negb]; [reflexivity|].
    destruct (grid_map_ self) as [g|]; [|reflexivity].
    destruct (reshape g) as [map_data| |]; cbn [bind]; try reflexivity.
    destruct (log_detected (detect_frontiers g map_data)); cbn [bind];
      try reflexivity.
    destruct (group_nearby_frontiers g (detect_frontiers g map_data))
      as [[grouped groups]| |]; cbn [bind]; try reflexivity.
    destruct (detect_frontiers g map_data); [reflexivity|].
    destruct (find_closest g (pose2d_x Pose2D_new) (pose2d_y Pose2D_new)
                grouped None Inf)
      as [[group|]| |]; cbn [bind]; try reflexivity.
    destruct (world_centroid g group) as [[wx wy]| |]; cbn [bind]; reflexivity.
  - pose proof (get_pose_2d_returns math_acos (set_tf_listener_ tf self)) as Hr.
    unfold get_pose_2d in *. cbn [tf_listener_ set_tf_listener_] in *.
    destruct tf as [[[t0 t1] t2] [[[qx qy] qz] qw]]. cbn [trans rot fst snd] in *.
    destruct (if Qle_bool 0 qz
              then a <- py_acos math_acos qw ;; wrap_angle (2 * a)
              else a <- py_acos math_acos qw ;; wrap_angle (-2 * a))
      as [theta| |]; cbn [bind] in *; auto.
Qed.

(** ** A goal is sent: the witness *)


(** ** More on wrap_angle *)






(** ** The eight neighbours *)

Lemma adjacent_spec (width height : Z) (a b : cell) :
  adjacent width height a b <->
  b <> a /\ Z.abs (fst b - fst a) <= 1 /\ Z.abs (snd b - snd a) <= 1 /\
  in_grid width height b.
Proof.
  destruct a as [x y], b as [nx ny]. unfold adjacent, in_grid. cbn [fst snd].
  rewrite in_neighbours8. tauto.
Qed.

Lemma adjacent_sym (width height : Z) (a b : cell) :
  in_grid width height a -> adjacent width height a b -> adjacent width height b a.
Proof.
  rewrite !adjacent_spec. intros Ha (Hne & Hx & Hy & Hb).
  repeat split; try (apply Ha); try lia. intro E. apply Hne. symmetry. exact E.
Qed.

Lemma neighbours8_shape (width height x y : Z) :
  NoDup (neighbours8 width height x y) /\
  (length (neighbours8 width height x y) <= 8)%nat.
Proof.
  unfold neighbours8. cbn [flat_map app].
  change (negb (-1 =? 0)) with true. change (negb (0 =? 0)) with false.
  change (negb (1 =? 0)) with true. cbn [orb andb].
  destruct ((0 <=? x + -1) && (x + -1 <? width));
    destruct ((0 <=? x + 0) && (x + 0 <? width));
    destruct ((0 <=? x + 1) && (x + 1 <? width));
    destruct ((0 <=? y + -1) && (y + -1 <? height));
    destruct ((0 <=? y + 0) && (y + 0 <? height));
    destruct ((0 <=? y + 1) && (y + 1 <? height));
    cbn [andb app length];
    (split; [|lia]);
    repeat (constructor; [cbn [In]; intros H;
                          repeat (destruct H as [H|H]; [injection H; lia|]);
                          exact H|]);
    constructor.
Qed.

(** X3.  The comprehension of lines 337 and 367 lists the 8-neighbourhood
    cut at the border of the grid: no cell twice, never the cell itself, at
    most eight cells and exactly eight away from the border; and it is
    symmetric between cells of the grid. *)
Theorem neighbours8_clipped_neighbourhood :
  forall width height x y : Z,
    NoDup (neighbours8 width height x y) /\
    (length (neighbours8 width height x y) <= 8)%nat /\
    ~ In (x, y) (neighbours8 width height x y) /\
    (forall nx ny : Z,
        0 <= x < width -> 0 <= y < height ->
        In (nx, ny) (neighbours8 width height x y) ->
        In (x, y) (neighbours8 width height nx ny)) /\
    (0 < x < width - 1 -> 0 < y < height - 1 ->
     length (neighbours8 width height x y) = 8%nat).
Proof.
  intros width height x y.
  destruct (neighbours8_shape width height x y) as [Hnd Hlen].
  split; [exact Hnd|]. split; [exact Hlen|]. split; [|split].
  - rewrite in_neighbours8. intros [Hne _]. apply Hne. reflexivity.
  - intros nx ny Hx Hy Hin.
    apply (adjacent_sym width height (x, y) (nx, ny)); [split; assumption|].
    exact Hin.
  - intros Hx Hy. unfold neighbours8. cbn [flat_map app].
    replace ((0 <=? x + -1) && (x + -1 <? width)) with true by (symmetry; apply andb_true_iff; split; [apply Z.leb_le|apply Z.ltb_lt]; lia).
    replace ((0 <=? x + 0) && (x + 0 <? width)) with true by (symmetry; apply andb_true_iff; split; [apply Z.leb_le|apply Z.ltb_lt]; lia).
    replace ((0 <=? x + 1) && (x + 1 <? width)) with true by (symmetry; apply andb_true_iff; split; [apply Z.leb_le|apply Z.ltb_lt]; lia).
    replace ((0 <=? y + -1) && (y + -1 <? height)) with true by (symmetry; apply andb_true_iff; split; [apply Z.leb_le|apply Z.ltb_lt]; lia).
    replace ((0 <=? y + 0) && (y + 0 <? height)) with true by (symmetry; apply andb_true_iff; split; [apply Z.leb_le|apply Z.ltb_lt]; lia).
    replace ((0 <=? y + 1) && (y + 1 <? height)) with true by (symmetry; apply andb_true_iff; split; [apply Z.leb_le|apply Z.ltb_lt]; lia).
    reflexivity.
Qed.

(** [neighbours8_clipped_neighbourhood] at the centre of a 3 x 3 grid. *)
Lemma neighbours8_clipped_neighbourhood_witness :
  In (1, 1) (neighbours8 3 3 0 0) /\ length (neighbours8 3 3 1 1) = 8%nat.
Proof.
  pose proof (neighbours8_clipped_neighbourhood 3 3 1 1) as (_ & _ & _ & Hsym & Hlen).
  split.
  - apply Hsym; [lia | lia |]. cbn. auto.
  - apply Hlen; lia.
Defined.

(** ** Groups are connected components *)

Lemma linked_incl (width height : Z) (cells cells' : list cell) (a b : cell) :
  incl cells cells' ->
  linked width height cells a b -> linked width height cells' a b.
Proof.
  intros Hincl. induction 1 as [a Ha | a b c _ IH Hc Hadj].
  - apply linked_here. apply Hincl. exact Ha.
  - apply (linked_step _ _ _ a b c); auto.
Qed.

Lemma py_remove_NoDup (c : cell) (l : list cell) :
  NoDup l -> In c l ->
  NoDup (py_remove c l) /\ ~ In c (py_remove c l) /\ incl (py_remove c l) l.
Proof.
  intros Hnd Hin. pose proof (py_remove_perm c l Hin) as Hp.
  pose proof (Permutation_NoDup Hp Hnd) as Hnd'.
  apply NoDup_cons_iff in Hnd'. destruct Hnd' as [Hn Hnd'].
  repeat split; auto.
  intros x Hx. apply (Permutation_in x (Permutation_sym Hp)). right. exact Hx.
Qed.

Lemma take_neighbours_removes (neighbours : list cell) :
  forall queue to_visit queue' to_visit',
    NoDup queue ->
    take_neighbours neighbours queue to_visit = (queue', to_visit') ->
    incl queue' queue /\
    (forall n, In n neighbours -> ~ In n queue') /\
    (forall t, In t to_visit' -> In t to_visit \/ In t neighbours).
Proof.
  induction neighbours as [|n ns IH]; intros q tv q' tv' Hnd H;
    cbn [take_neighbours] in H.
  - injection H as <- <-. repeat split; auto using incl_refl.
  - destruct (py_in n q) eqn:E.
    + apply py_in_In in E.
      destruct (py_remove_NoDup n q Hnd E) as (Hnd1 & Hn1 & Hi1).
      destruct (IH _ _ _ _ Hnd1 H) as (Hincl & Hrem & Htv).
      split; [|split].
      * intros x Hx. apply Hi1, Hincl, Hx.
      * intros m [<-|Hm]; [|exact (Hrem m Hm)].
        intro Hin. apply Hn1, Hincl, Hin.
      * intros t Ht. destruct (Htv t Ht) as [Ht'|Ht'].
        -- apply in_app_or in Ht'. destruct Ht' as [Ht'|[<-|[]]]; auto.
           right. left. reflexivity.
        -- right. right. exact Ht'.
    + destruct (IH _ _ _ _ Hnd H) as (Hincl & Hrem & Htv).
      split; [exact Hincl|]. split.
      * intros m [<-|Hm]; [|exact (Hrem m Hm)].
        intro Hin. apply Hincl in Hin. apply py_in_In in Hin. congruence.
      * intros t Ht. destruct (Htv t Ht); auto. right. right. assumption.
Qed.

Lemma visit_group_component (width height : Z) (root : cell) (fuel : nat) :
  forall to_visit queue visited current_group queue' visited' group',
    NoDup (queue ++ to_visit ++ visited) ->
    (forall t, In t to_visit -> linked width height (t :: current_group) root t) ->
    (forall x, In x current_group -> linked width height current_group root x) ->
    visit_group fuel width height to_visit queue visited current_group
    = Ok (queue', visited', group') ->
    incl queue' queue /\
    (forall x, In x group' -> linked width height group' root x) /\
    exists added,
      group' = current_group ++ added /\
      forall a b, In a added -> adjacent width height a b -> ~ In b queue'.
Proof.
  induction fuel as [|fuel IH];
    intros tv q vis grp q' vis' grp' Hnd Htv Hgrp H.
  - destruct tv as [|f tv]; cbn [visit_group] in H; [|discriminate].
    injection H as <- <- <-. split; [apply incl_refl|]. split; [exact Hgrp|].
    exists []. rewrite app_nil_r. split; [reflexivity|]. intros a b [].
  - destruct tv as [|f tv]; cbn [visit_group] in H.
    + injection H as <- <- <-. split; [apply incl_refl|]. split; [exact Hgrp|].
      exists []. rewrite app_nil_r. split; [reflexivity|]. intros a b [].
    + assert (Hf : ~ In f vis).
      { intro Hin. apply NoDup_app_remove_l in Hnd. cbn in Hnd.
        apply NoDup_cons_iff in Hnd. destruct Hnd as [Hn _]. apply Hn.
        apply in_or_app. right. exact Hin. }
      rewrite (py_in_false _ _ Hf) in H.
      destruct (take_neighbours (neighbours8 width height (fst f) (snd f)) q tv)
        as [q2 tv2] eqn:Et.
      pose proof (take_neighbours_removes _ _ _ _ _ (NoDup_app_remove_r _ _ Hnd) Et)
        as (Hincl2 & Hrem & Htv2).
      apply take_neighbours_spec in Et. destruct Et as (extra & -> & Hp).
      assert (Hf' : linked width height (grp ++ [f]) root f).
      { apply (linked_incl width height (f :: grp)); [|apply Htv; left; reflexivity].
        intros x [<-|Hx]; apply in_or_app; [right; left; reflexivity | left; exact Hx]. }
      destruct (IH (tv ++ extra) q2 (vis ++ [f]) (grp ++ [f]) q' vis' grp')
        as (Hincl & Hlink & added & -> & Hclosed); [ | | | exact H | ].
      * eapply Permutation_NoDup; [|exact Hnd]. rewrite <- Hp. perm_app.
      * intros t Ht. destruct (Htv2 t Ht) as [Ht'|Ht'].
        -- apply (linked_incl width height (t :: grp));
             [|apply Htv; right; exact Ht'].
           intros x [<-|Hx]; [left; reflexivity|].
           right. apply in_or_app. left. exact Hx.
        -- apply (linked_step _ _ _ root f t).
           ++ apply (linked_incl width height (grp ++ [f])); [|exact Hf'].
              intros x Hx. right. exact Hx.
           ++ left. reflexivity.
           ++ exact Ht'.
      * intros x Hx. apply in_app_or in Hx. destruct Hx as [Hx|[<-|[]]].
        -- apply (linked_incl width height grp); [|apply Hgrp; exact Hx].
           intros z Hz. apply in_or_app. left. exact Hz.
        -- exact Hf'.
      * split; [intros x Hx; apply Hincl2, Hincl, Hx|].
        split; [exact Hlink|].
        exists (f :: added). rewrite <- app_assoc. split; [reflexivity|].
        intros a b [<-|Ha] Hadj.
        -- intro Hb. apply (Hrem b Hadj). apply Hincl. exact Hb.
        -- exact (Hclosed a b Ha Hadj).
Qed.

Lemma group_frontiers_components (width height : Z) (fuel : nat) :
  forall queue visited grouped_frontiers groups grouped' groups',
    NoDup (queue ++ visited) ->
    (forall c, In c queue -> in_grid width height c) ->
    group_frontiers fuel width height queue visited grouped_frontiers groups
    = Ok (grouped', groups') ->
    exists formed,
      groups' = groups ++ formed /\
      Permutation (concat formed) queue /\
      (forall group a b,
          In group formed -> In a group -> adjacent width height a b ->
          In b queue -> In b group) /\
      (forall group,
          In group formed ->
          exists root,
            In root group /\
            forall x, In x group -> linked width height group root x).
Proof.
  induction fuel as [|fuel IH]; intros q vis grouped groups rg rgs Hnd Hgrid H.
  - destruct q as [|c q]; cbn [group_frontiers] in H; [|discriminate].
    injection H as <- <-. exists []. rewrite app_nil_r. cbn [concat].
    split; [reflexivity|]. split; [apply perm_nil|].
    split; [intros group a b [] | intros group []].
  - destruct q as [|c q]; cbn [group_frontiers] in H.
    + injection H as <- <-. exists []. rewrite app_nil_r. cbn [concat].
      split; [reflexivity|]. split; [apply perm_nil|].
      split; [intros group a b [] | intros group []].
    + assert (Hc : ~ In c vis).
      { intro Hin. cbn in Hnd. apply NoDup_cons_iff in Hnd.
        destruct Hnd as [Hn _]. apply Hn. apply in_or_app. right. exact Hin. }
      rewrite (py_in_false _ _ Hc) in H.
      assert (Hnd1 : NoDup (q ++ [c] ++ vis)).
      { eapply Permutation_NoDup; [|exact Hnd]. perm_app. }
      destruct (visit_group_spec width height (S (length q)) [c] q vis [] Hnd1)
        as (q' & added & Hv & Hperm & Hincl); [cbn; lia|].
      assert (Hroot : forall t, In t [c] -> linked width height [t] c t).
      { intros t [<-|[]]. apply linked_here. left. reflexivity. }
      assert (Hnone : forall x : cell, In x [] -> linked width height [] c x).
      { intros x []. }
      destruct (visit_group_component width height c _ _ _ _ _ _ _ _
                  Hnd1 Hroot Hnone Hv)
        as (Hsub & Hlink & added' & Eadd & Hclosed).
      cbn [app] in Eadd. subst added'.
      rewrite Hv in H. cbn [bind app] in H.
      assert (Hadd : In c added) by (apply Hincl; left; reflexivity).
      assert (Hsplit : forall x, In x (c :: q) -> In x q' \/ In x added).
      { intros x Hx. apply in_app_or.
        apply (Permutation_in x (Permutation_sym Hperm)).
        apply in_or_app. destruct Hx as [<-|Hx]; [right; left; reflexivity | left; exact Hx]. }
      assert (Hnd2 : NoDup (q' ++ vis ++ added)).
      { eapply Permutation_NoDup; [|exact Hnd].
        transitivity ((q' ++ added) ++ vis); [|perm_app].
        rewrite Hperm. perm_app. }
      assert (Hgrid2 : forall x, In x q' -> in_grid width height x).
      { intros x Hx. apply Hgrid. right. apply Hsub. exact Hx. }
      destruct (IH _ _ _ _ _ _ Hnd2 Hgrid2 H)
        as (formed & -> & Hp & Hadj & Hconn).
      exists (added :: formed). rewrite <- app_assoc. cbn [app concat].
        split; [reflexivity|]. split; [|split].
        -- rewrite Hp. transitivity (q' ++ added); [perm_app|].
           rewrite Hperm. perm_app.
        -- intros group a b [<-|Hg] Ha Hab Hb.
           ++ destruct (Hsplit b Hb) as [Hq|Hd]; [|exact Hd].
              exfalso. exact (Hclosed a b Ha Hab Hq).
           ++ assert (Haq : In a q').
              { apply (Permutation_in a Hp). apply in_concat.
                exists group. split; assumption. }
              destruct (Hsplit b Hb) as [Hq|Hd].
              ** exact (Hadj group a b Hg Ha Hab Hq).
              ** exfalso. apply (Hclosed b a Hd); [|exact Haq].
                 apply adjacent_sym; [|exact Hab].
                 apply Hgrid. right. apply Hsub. exact Haq.
        -- intros group [<-|Hg]; [|exact (Hconn group Hg)].
           exists c. split; [exact Hadd | exact Hlink].
Qed.

(** X4.  The grouping loop of lines 348 to 379, run on a queue of distinct
    cells of the grid, forms the connected components of the queue under
    8-adjacency: the groups rearrange the queue, each group hangs together
    (every cell of it is reached from one of its cells by steps between
    8-neighbours inside the group), and two queued cells that are
    8-neighbours are always in the same group. *)
Theorem group_frontiers_connected_components :
  forall (width height : Z) (queue : list cell),
    NoDup queue ->
    (forall c, In c queue -> in_grid width height c) ->
    exists grouped_frontiers groups,
      group_frontiers (length queue) width height queue [] [] []
      = Ok (grouped_frontiers, groups) /\
      Permutation (concat groups) queue /\
      (forall group,
          In group groups ->
          exists root,
            In root group /\
            forall x, In x group -> linked width height group root x) /\
      (forall a b,
          In a queue -> In b queue -> adjacent width height a b ->
          exists group, In group groups /\ In a group /\ In b group).
Proof.
  intros width height queue Hnd Hgrid.
  destruct (group_frontiers_spec width height (length queue) queue [] [] [])
    as (formed & Hg & _); [rewrite app_nil_r; exact Hnd | apply Nat.le_refl |].
  cbn [app] in Hg.
  assert (Hnd0 : NoDup (queue ++ [])) by (rewrite app_nil_r; exact Hnd).
  destruct (group_frontiers_components width height (length queue)
              queue [] [] [] _ _ Hnd0 Hgrid Hg)
    as (formed' & E & Hp & Hadj & Hconn).
  cbn [app] in E. subst formed'.
  exists (filter kept formed), formed.
  split; [exact Hg|]. split; [exact Hp|]. split; [exact Hconn|].
  intros a b Ha Hb Hab.
  apply (Permutation_in a (Permutation_sym Hp)) in Ha.
  apply in_concat in Ha. destruct Ha as (group & Hgin & Hag).
  exists group. split; [exact Hgin|]. split; [exact Hag|].
  exact (Hadj group a b Hgin Hag Hab Hb).
Qed.

(** [group_frontiers_connected_components] on three cells in a row. *)
Lemma group_frontiers_connected_components_witness :
  exists grouped_frontiers groups,
    group_frontiers 3 3 2 [(0, 0); (1, 0); (2, 0)] [] [] []
    = Ok (grouped_frontiers, groups) /\
    Permutation (concat groups) [(0, 0); (1, 0); (2, 0)] /\
    (forall group,
        In group groups ->
        exists root,
          In root group /\ forall x, In x group -> linked 3 2 group root x) /\
    (forall a b,
        In a [(0, 0); (1, 0); (2, 0)] -> In b [(0, 0); (1, 0); (2, 0)] ->
        adjacent 3 2 a b ->
        exists group, In group groups /\ In a group /\ In b group).
Proof.
  apply (group_frontiers_connected_components 3 2 [(0, 0); (1, 0); (2, 0)]).
  - repeat constructor; cbn; intuition discriminate.
  - intros c [<-|[<-|[<-|[]]]]; unfold in_grid; cbn; lia.
Defined.

(** ** Which input makes planner_to_frontiers raise *)

(** X6.  A grid whose [data] has not [height * width] entries makes the
    planner raise ValueError (the reshape of line 329); a well-shaped grid
    with a frontier cell and resolution 0 makes it raise ZeroDivisionError
    (line 345). *)
Theorem planner_to_frontiers_bad_metadata :
  forall (math_cos math_sin : Q -> Q) (self : CaveExplorer)
         (g : OccupancyGrid) (action_state : Z),
    grid_map_ self = Some g ->
    action_state <> GoalStatus.ACTIVE ->
    (length (data g) <> (info_height g * info_width g)%nat ->
     planner_to_frontiers math_cos math_sin self action_state = Raise ValueError) /\
    (length (data g) = (info_height g * info_width g)%nat ->
     frontier_cells g (data g) <> [] ->
     (info_resolution g == 0)%Q ->
     planner_to_frontiers math_cos math_sin self action_state
     = Raise ZeroDivisionError).
Proof.
  intros math_cos math_sin self g action_state Hg Ha.
  apply Z.eqb_neq in Ha. unfold planner_to_frontiers. rewrite Ha, Hg. cbn [negb].
  unfold reshape. split.
  - intro Hlen. apply Nat.eqb_neq in Hlen. rewrite Hlen. reflexivity.
  - intros Hlen Hf Hres. apply Nat.eqb_eq in Hlen. rewrite Hlen. cbn [bind].
    unfold group_nearby_frontiers.
    rewrite (frontier_queue_zero_resolution _ _ Hres).
    rewrite detect_frontiers_cells.
    destruct (frontier_cells g (data g)) as [|c cells]; [contradiction|].
    reflexivity.
Qed.

(** [planner_to_frontiers_bad_metadata]: a 2 x 2 grid with three entries,
    and the grid of three frontier cells with resolution 0. *)
Lemma planner_to_frontiers_bad_metadata_witness :
  planner_to_frontiers (fun a => a) (fun a => a)
    (CaveExplorer_init tf_far (mkOccupancyGrid 2 2 1 0 0 [0; 0; -1]))
    GoalStatus.LOST
  = Raise ValueError /\
  planner_to_frontiers (fun a => a) (fun a => a)
    (CaveExplorer_init tf_far (mkOccupancyGrid 3 2 0 0 0 [0; 0; 0; -1; -1; -1]))
    GoalStatus.LOST
  = Raise ZeroDivisionError.
Proof.
  split.
  - apply (planner_to_frontiers_bad_metadata (fun a => a) (fun a => a)
             (CaveExplorer_init tf_far (mkOccupancyGrid 2 2 1 0 0 [0; 0; -1]))
             (mkOccupancyGrid 2 2 1 0 0 [0; 0; -1]) GoalStatus.LOST);
      [reflexivity | discriminate | cbn; lia].
  - apply (planner_to_frontiers_bad_metadata (fun a => a) (fun a => a)
             (CaveExplorer_init tf_far
                (mkOccupancyGrid 3 2 0 0 0 [0; 0; 0; -1; -1; -1]))
             (mkOccupancyGrid 3 2 0 0 0 [0; 0; 0; -1; -1; -1]) GoalStatus.LOST);
      [reflexivity | discriminate | reflexivity | cbn; discriminate | reflexivity].
Defined.

Lemma length_in_concat {A : Type} (ls : list (list A)) (l : list A) :
  In l ls -> (length l <= length (concat ls))%nat.
Proof.
  induction ls as [|l' ls IH]; cbn [In concat]; [contradiction|].
  rewrite length_app. intros [->|H]; [lia|]. specialize (IH H). lia.
Qed.

Lemma filter_nil {A : Type} (f : A -> bool) (l : list A) :
  (forall x, In x l -> f x = false) -> filter f l = [].
Proof.
  induction l as [|x l IH]; intro H; cbn [filter]; [reflexivity|].
  rewrite (H x (or_introl eq_refl)). apply IH. intros y Hy. apply H. right. exact Hy.
Qed.

(** X7.  On a well-shaped grid with resolution not 0 that has frontier
    cells, but at most 500 of them, no group can be kept and the planner
    raises TypeError at line 405. *)
Theorem planner_to_frontiers_few_frontier_cells :
  forall (math_cos math_sin : Q -> Q) (self : CaveExplorer)
         (g : OccupancyGrid) (action_state : Z),
    grid_map_ self = Some g ->
    action_state <> GoalStatus.ACTIVE ->
    length (data g) = (info_height g * info_width g)%nat ->
    ~ (info_resolution g == 0)%Q ->
    frontier_cells g (data g) <> [] ->
    (length (frontier_cells g (data g)) <= 500)%nat ->
    planner_to_frontiers math_cos math_sin self action_state = Raise TypeError.
Proof.
  intros math_cos math_sin self g action_state Hg Ha Hlen Hres Hne Hfew.
  destruct (group_nearby_frontiers_spec g (data g) Hres) as (groups & Hgroups & Hp & _).
  assert (Hnone : filter kept groups = []).
  { apply filter_nil. intros group Hin. unfold kept. apply Nat.ltb_ge.
    pose proof (length_in_concat groups group Hin) as Hl.
    rewrite (Permutation_length Hp) in Hl. lia. }
  rewrite Hnone in Hgroups.
  exact (planner_to_frontiers_no_kept_group math_cos math_sin self g action_state
           Hg Ha Hlen Hne groups Hgroups).
Qed.

(** [planner_to_frontiers_few_frontier_cells] on the grid of three frontier
    cells. *)
Lemma planner_to_frontiers_few_frontier_cells_witness :
  planner_to_frontiers (fun a => a) (fun a => a)
    (CaveExplorer_init tf_far grid_small) GoalStatus.ABORTED
  = Raise TypeError.
Proof.
  apply (planner_to_frontiers_few_frontier_cells (fun a => a) (fun a => a)
           (CaveExplorer_init tf_far grid_small) grid_small GoalStatus.ABORTED);
    [reflexivity | discriminate | reflexivity | cbn; discriminate
    | cbn; discriminate | apply Nat.leb_le; reflexivity].
Defined.

Lemma map_data_at_known (width : Z) (map_data : list Z) (x y : Z) :
  (forall v, In v map_data -> v <> -1) ->
  map_data_at width map_data x y <> -1.
Proof.
  intro H. unfold map_data_at.
  destruct (nth_in_or_default (Z.to_nat (y * width + x)) map_data 100) as [Hin|E].
  - apply H. exact Hin.
  - rewrite E. discriminate.
Qed.

(** X8.  A well-shaped map without any unknown cell has no frontier cell,
    and the planner, called with a status other than ACTIVE, raises
    ValueError on it instead of reporting that the exploration is over. *)
Theorem planner_to_frontiers_known_map_raises :
  forall (math_cos math_sin : Q -> Q) (self : CaveExplorer)
         (g : OccupancyGrid) (action_state : Z),
    grid_map_ self = Some g ->
    action_state <> GoalStatus.ACTIVE ->
    length (data g) = (info_height g * info_width g)%nat ->
    (forall v, In v (data g) -> v <> -1) ->
    frontier_cells g (data g) = [] /\
    planner_to_frontiers math_cos math_sin self action_state = Raise ValueError.
Proof.
  intros math_cos math_sin self g action_state Hg Ha Hlen Hknown.
  assert (Hf : frontier_cells g (data g) = []).
  { destruct (frontier_cells g (data g)) as [|[x y] l] eqn:E; [reflexivity|].
    exfalso.
    assert (Hin : In (x, y) (frontier_cells g (data g))) by (rewrite E; left; reflexivity).
    apply in_frontier_cells in Hin. destruct Hin as (_ & _ & Hfr).
    apply is_frontier_spec in Hfr. destruct Hfr as (_ & nx & ny & H).
    destruct H as (_ & _ & _ & _ & _ & Hu).
    exact (map_data_at_known _ _ _ _ Hknown Hu). }
  split; [exact Hf|].
  exact (planner_to_frontiers_no_frontier math_cos math_sin self g action_state
           Hg Ha Hlen Hf).
Qed.

(** [planner_to_frontiers_known_map_raises] on a 2 x 2 map, three cells free
    and one occupied. *)
Lemma planner_to_frontiers_known_map_raises_witness :
  planner_to_frontiers (fun a => a) (fun a => a)
    (CaveExplorer_init tf_far (mkOccupancyGrid 2 2 1 0 0 [0; 0; 0; 100]))
    GoalStatus.SUCCEEDED
  = Raise ValueError.
Proof.
  apply (planner_to_frontiers_known_map_raises (fun a => a) (fun a => a)
           (CaveExplorer_init tf_far (mkOccupancyGrid 2 2 1 0 0 [0; 0; 0; 100]))
           (mkOccupancyGrid 2 2 1 0 0 [0; 0; 0; 100]) GoalStatus.SUCCEEDED);
    [reflexivity | discriminate | reflexivity |].
  intros v Hv. cbn in Hv.
  destruct Hv as [<-|[<-|[<-|[<-|[]]]]]; discriminate.
Defined.

(** ** The loop body, phase by phase *)

Lemma planner_return_home_cases (math_cos math_sin : Q -> Q)
  (self : CaveExplorer) (action_state : Z) :
  planner_return_home math_cos math_sin self action_state
  = if action_state =? GoalStatus.ACTIVE then Ok self
    else Ok (send_pose_goal math_cos math_sin self (mkPose2D 0 0 0)).
Proof.
  unfold planner_return_home. destruct (action_state =? GoalStatus.ACTIVE); reflexivity.
Qed.

(** Lines 440 to 447 of the loop body only touch the two "reached" flags;
    [returned_home_] becomes true exactly on SUCCEEDED under RETURN_HOME. *)
Lemma main_loop_body_flags (math_cos math_sin math_acos : Q -> Q)
  (self : CaveExplorer) (action_state : Z) :
  exists s : CaveExplorer,
    finised_exploring s = finised_exploring self /\
    move_base_action_client_ s = move_base_action_client_ self /\
    goal_counter_ s = goal_counter_ self /\
    returned_home_ s
    = returned_home_ self
      || (PlannerType_eqb (planner_type_ self) RETURN_HOME
          && (action_state =? GoalStatus.SUCCEEDED)) /\
    main_loop_body math_cos math_sin math_acos self action_state
    = if negb (finised_exploring s)
      then (s' <- planner_to_frontiers math_cos math_sin
                    (set_planner_type_ FRONTIER_EXPLORER s) action_state ;;
            Ok (s', true))
      else if negb (returned_home_ s)
           then (s' <- planner_return_home math_cos math_sin
                         (set_planner_type_ RETURN_HOME s) action_state ;;
                 Ok (s', true))
           else Ok (s, false).
Proof.
  unfold main_loop_body. cbv zeta.
  destruct (PlannerType_eqb (planner_type_ self) GO_TO_FIRST_ARTIFACT
            && (action_state =? GoalStatus.SUCCEEDED)) eqn:E1;
    cbn [planner_type_ set_reached_first_artifact_].
  - assert (E2 : PlannerType_eqb (planner_type_ self) RETURN_HOME = false).
    { apply andb_true_iff in E1. destruct E1 as [E1 _].
      destruct (planner_type_ self); try discriminate; reflexivity. }
    rewrite E2. cbn [andb]. rewrite orb_false_r.
    exists (set_reached_first_artifact_ true self).
    repeat split.
    cbn [finised_exploring returned_home_ set_reached_first_artifact_].
    destruct (finised_exploring self); destruct (returned_home_ self); reflexivity.
  - destruct (PlannerType_eqb (planner_type_ self) RETURN_HOME
              && (action_state =? GoalStatus.SUCCEEDED)) eqn:E2.
    + exists (set_returned_home_ true self). rewrite orb_true_r.
      repeat split.
      cbn [finised_exploring returned_home_ set_returned_home_].
      destruct (finised_exploring self); reflexivity.
    + exists self. rewrite orb_false_r. repeat split.
      destruct (finised_exploring self); destruct (returned_home_ self); reflexivity.
Qed.

(** X9.  Whatever the object and the status, a pass through the loop body
    runs the frontier planner (when [finised_exploring] is false) or the
    return-home planner, never another one; it can only raise while
    [finised_exploring] is false; and it takes the [break] only with both
    [finised_exploring] and [returned_home_] true, sending nothing. *)
Theorem main_loop_body_phases :
  forall (math_cos math_sin math_acos : Q -> Q) (self : CaveExplorer)
         (action_state : Z),
    match main_loop_body math_cos math_sin math_acos self action_state with
    | Ok (self', true) =>
        (finised_exploring self = false /\
         planner_type_ self' = FRONTIER_EXPLORER) \/
        (finised_exploring self = true /\
         planner_type_ self' = RETURN_HOME /\
         returned_home_ self' = false)
    | Ok (self', false) =>
        finised_exploring self' = true /\ returned_home_ self' = true /\
        move_base_action_client_ self' = move_base_action_client_ self
    | Raise _ => finised_exploring self = false
    | Timeout => False
    end.
Proof.
  intros math_cos math_sin math_acos self action_state.
  destruct (main_loop_body_flags math_cos math_sin math_acos self action_state)
    as (s & Hf & Hm & _ & _ & ->).
  destruct (finised_exploring s) eqn:Ef; cbn [negb].
  - destruct (returned_home_ s) eqn:Er; cbn [negb].
    + auto.
    + rewrite planner_return_home_cases.
      destruct (action_state =? GoalStatus.ACTIVE); cbn [bind];
        right; repeat split; auto.
  - pose proof (planner_to_frontiers_cases math_cos math_sin
                  (set_planner_type_ FRONTIER_EXPLORER s) action_state) as Hc.
    pose proof (planner_to_frontiers_returns math_cos math_sin
                  (set_planner_type_ FRONTIER_EXPLORER s) action_state) as Hr.
    destruct (planner_to_frontiers math_cos math_sin
                (set_planner_type_ FRONTIER_EXPLORER s) action_state)
      as [s'| |]; cbn [bind]; auto.
    left. split; [symmetry; exact Hf|].
    destruct Hc as [[_ ->] | [_ [pose_2d ->]]]; reflexivity.
Qed.

(** X10.  Once [finised_exploring] is true the loop body never raises.  It
    takes the [break] exactly when the robot had already returned home or
    the status is SUCCEEDED under the planner RETURN_HOME; otherwise it
    selects RETURN_HOME and, unless the status is ACTIVE, sends one goal
    whose position is (0, 0). *)
Theorem main_loop_body_return_home :
  forall (math_cos math_sin math_acos : Q -> Q) (self : CaveExplorer)
         (action_state : Z),
    finised_exploring self = true ->
    exists self' continue,
      main_loop_body math_cos math_sin math_acos self action_state
      = Ok (self', continue) /\
      (continue = false <->
       returned_home_ self = true \/
       (planner_type_ self = RETURN_HOME /\ action_state = GoalStatus.SUCCEEDED)) /\
      (continue = true ->
       planner_type_ self' = RETURN_HOME /\
       (action_state = GoalStatus.ACTIVE ->
        move_base_action_client_ self' = move_base_action_client_ self) /\
       (action_state <> GoalStatus.ACTIVE ->
        exists g,
          move_base_action_client_ self' = move_base_action_client_ self ++ [g] /\
          target_frame_id g = frame_map /\
          position_x (target_pose g) = 0%Q /\ position_y (target_pose g) = 0%Q)).
Proof.
  intros math_cos math_sin math_acos self action_state Hfin.
  destruct (main_loop_body_flags math_cos math_sin math_acos self action_state)
    as (s & Hf & Hm & _ & Hr & ->).
  rewrite Hf, Hfin. cbn [negb].
  assert (Hhome : returned_home_ s = true <->
                  returned_home_ self = true \/
                  (planner_type_ self = RETURN_HOME /\
                   action_state = GoalStatus.SUCCEEDED)).
  { rewrite Hr, orb_true_iff, andb_true_iff, Z.eqb_eq.
    assert (Hp : PlannerType_eqb (planner_type_ self) RETURN_HOME = true
                 <-> planner_type_ self = RETURN_HOME).
    { destruct (planner_type_ self); cbn; split; congruence. }
    rewrite Hp. tauto. }
  destruct (returned_home_ s) eqn:Er; cbn [negb].
  - exists s, false. split; [reflexivity|]. split.
    + split; [intros _; apply Hhome; reflexivity | reflexivity].
    + discriminate.
  - rewrite planner_return_home_cases.
    destruct (action_state =? GoalStatus.ACTIVE) eqn:Ea; cbn [bind].
    + apply Z.eqb_eq in Ea. eexists _, true. split; [reflexivity|]. split.
      * split; [discriminate|]. intro H. apply Hhome in H. discriminate.
      * intros _. split; [reflexivity|]. split; [intros _; exact Hm|].
        intro H. contradiction.
    + apply Z.eqb_neq in Ea. eexists _, true. split; [reflexivity|]. split.
      * split; [discriminate|]. intro H. apply Hhome in H. discriminate.
      * intros _. split; [reflexivity|]. split; [intro H; contradiction|].
        intros _. eexists. cbn. rewrite Hm. repeat split.
Qed.

(** [main_loop_body_return_home] on an object that has finished exploring,
    with a lost goal. *)
Lemma main_loop_body_return_home_witness :
  exists self' continue,
    main_loop_body (fun a => a) (fun a => a) (fun a => a)
      (set_finished_exploring true
         (mkCaveExplorer false false (Some grid_unknown) FRONTIER_EXPLORER
            false false false true false 3 None tf_far [] []))
      GoalStatus.LOST
    = Ok (self', continue) /\ continue = true.
Proof.
  destruct (main_loop_body_return_home (fun a => a) (fun a => a) (fun a => a)
              (set_finished_exploring true
                 (mkCaveExplorer false false (Some grid_unknown) FRONTIER_EXPLORER
                    false false false true false 3 None tf_far [] []))
              GoalStatus.LOST eq_refl)
    as (self' & continue & Hb & Hiff & _).
  exists self', continue. split; [exact Hb|].
  destruct continue; [reflexivity|].
  destruct (proj1 Hiff eq_refl) as [H|[H _]]; discriminate.
Defined.

(** ** The goals sent along a run *)

Lemma send_pose_goal_log (math_cos math_sin : Q -> Q)
  (self : CaveExplorer) (pose_2d : Pose2D) :
  move_base_action_client_ (send_pose_goal math_cos math_sin self pose_2d)
  = move_base_action_client_ self
    ++ [mkMoveBaseGoal frame_map (pose2d_to_pose math_cos math_sin pose_2d)] /\
  goal_counter_ (send_pose_goal math_cos math_sin self pose_2d)
  = goal_counter_ self + 1.
Proof. split; reflexivity. Qed.

Lemma main_loop_body_log (math_cos math_sin math_acos : Q -> Q)
  (self : CaveExplorer) (action_state : Z) :
  match main_loop_body math_cos math_sin math_acos self action_state with
  | Ok (self', _) =>
      exists new,
        move_base_action_client_ self' = move_base_action_client_ self ++ new /\
        goal_counter_ self' = goal_counter_ self + Z.of_nat (length new) /\
        (length new <= if (action_state =? GoalStatus.ACTIVE)%Z then 0 else 1)%nat
  | _ => True
  end.
Proof.
  destruct (main_loop_body_flags math_cos math_sin math_acos self action_state)
    as (s & _ & Hm & Hc & _ & ->).
  assert (Hsame : forall s' : CaveExplorer,
             move_base_action_client_ s' = move_base_action_client_ s ->
             goal_counter_ s' = goal_counter_ s ->
             exists new,
               move_base_action_client_ s' = move_base_action_client_ self ++ new /\
               goal_counter_ s' = goal_counter_ self + Z.of_nat (length new) /\
               (length new <= if (action_state =? GoalStatus.ACTIVE)%Z then 0 else 1)%nat).
  { intros s' H1 H2. exists []. rewrite H1, H2, Hm, Hc, app_nil_r. cbn.
    repeat split; [lia|]. destruct (action_state =? GoalStatus.ACTIVE); lia. }
  assert (Hsent : forall (s0 : CaveExplorer) pose_2d,
             action_state <> GoalStatus.ACTIVE ->
             move_base_action_client_ s0 = move_base_action_client_ s ->
             goal_counter_ s0 = goal_counter_ s ->
             exists new,
               move_base_action_client_ (send_pose_goal math_cos math_sin s0 pose_2d)
               = move_base_action_client_ self ++ new /\
               goal_counter_ (send_pose_goal math_cos math_sin s0 pose_2d)
               = goal_counter_ self + Z.of_nat (length new) /\
               (length new <= if (action_state =? GoalStatus.ACTIVE)%Z then 0 else 1)%nat).
  { intros s0 pose_2d Ha H1 H2.
    destruct (send_pose_goal_log math_cos math_sin s0 pose_2d) as [-> ->].
    eexists. rewrite H1, H2, Hm, Hc. split; [reflexivity|]. cbn [length].
    split; [lia|]. apply Z.eqb_neq in Ha. rewrite Ha. lia. }
  destruct (finised_exploring s); cbn [negb].
  - destruct (returned_home_ s); cbn [negb]; [apply Hsame; reflexivity|].
    rewrite planner_return_home_cases.
    destruct (action_state =? GoalStatus.ACTIVE) eqn:Ea; cbn [bind].
    + apply Hsame; reflexivity.
    + apply Z.eqb_neq in Ea.
      apply Hsent; [exact Ea | reflexivity | reflexivity].
  - pose proof (planner_to_frontiers_cases math_cos math_sin
                  (set_planner_type_ FRONTIER_EXPLORER s) action_state) as Hp.
    destruct (planner_to_frontiers math_cos math_sin
                (set_planner_type_ FRONTIER_EXPLORER s) action_state)
      as [s'| |]; cbn [bind]; auto.
    destruct Hp as [[_ ->] | [Ha [pose_2d ->]]].
    + apply Hsame; reflexivity.
    + apply Hsent; [exact Ha | reflexivity | reflexivity].
Qed.

Lemma callbacks_log (self : CaveExplorer) :
  (forall m, move_base_action_client_ (map_callback self m)
             = move_base_action_client_ self /\
             goal_counter_ (map_callback self m) = goal_counter_ self) /\
  (forall d, move_base_action_client_ (image_callback self d)
             = move_base_action_client_ self /\
             goal_counter_ (image_callback self d) = goal_counter_ self).
Proof.
  split; [intro m; split; reflexivity|].
  intro d. unfold image_callback.
  destruct (0 <? Z.of_nat (length d)); split; reflexivity.
Qed.

(** X11.  Along any run of [main_loop], from any object: the goals sent
    before stay in the log, in order; [goal_counter_] grows by exactly the
    number of goals sent; and there are at most as many new goals as passes
    through the body whose status was not ACTIVE. *)
Theorem main_loop_goal_log :
  forall (math_cos math_sin math_acos : Q -> Q) (trace : list event)
         (self : CaveExplorer),
    match main_loop math_cos math_sin math_acos trace self with
    | Looping self' | Exited self' =>
        exists new,
          move_base_action_client_ self' = move_base_action_client_ self ++ new /\
          goal_counter_ self' = goal_counter_ self + Z.of_nat (length new) /\
          (length new <= sending_ticks trace)%nat
    | Crashed _ => True
    | Stuck => False
    end.
Proof.
  intros math_cos math_sin math_acos trace.
  assert (Hrefl : forall self : CaveExplorer,
             exists new,
               move_base_action_client_ self = move_base_action_client_ self ++ new /\
               goal_counter_ self = goal_counter_ self + Z.of_nat (length new) /\
               (length new <= 0)%nat).
  { intro self. exists []. rewrite app_nil_r. cbn. repeat split; lia. }
  induction trace as [|ev trace IH]; intro self; cbn [main_loop sending_ticks].
  - apply Hrefl.
  - destruct ev as [action_state | m | d | tf | ].
    + pose proof (main_loop_body_log math_cos math_sin math_acos self action_state) as Hb.
      pose proof (main_loop_body_returns math_cos math_sin math_acos self action_state) as Hr.
      destruct (main_loop_body math_cos math_sin math_acos self action_state)
        as [[s1 [|]]| |]; auto.
      * destruct Hb as (new1 & Hm1 & Hc1 & Hl1).
        specialize (IH s1).
        destruct (main_loop math_cos math_sin math_acos trace s1) as [s2|s2| |];
          auto;
          destruct IH as (new2 & Hm2 & Hc2 & Hl2);
          exists (new1 ++ new2);
          rewrite Hm2, Hm1, Hc2, Hc1, app_assoc, length_app;
          (split; [reflexivity|]); split; lia.
      * destruct Hb as (new1 & Hm1 & Hc1 & Hl1).
        exists new1. repeat split; auto. lia.
    + destruct (callbacks_log self) as [Hmap _]. destruct (Hmap m) as [Hm Hc].
      specialize (IH (map_callback self m)). rewrite Hm, Hc in IH. exact IH.
    + destruct (callbacks_log self) as [_ Himg]. destruct (Himg d) as [Hm Hc].
      specialize (IH (image_callback self d)). rewrite Hm, Hc in IH. exact IH.
    + exact (IH (set_tf_listener_ tf self)).
    + destruct (Hrefl self) as (new & H1 & H2 & H3).
      exists new. repeat split; auto. lia.
Qed.

(** ** planner_move_forwards *)

(** X12.  [planner_move_forwards] acts only on the status LOST: with any
    other status, SUCCEEDED and ABORTED included, it leaves the object as it
    is.  With LOST it raises ValueError when [qw] is outside [-1, 1], and
    otherwise sends one goal 10 units ahead of the pose of the transform,
    along a heading between 0 and [2 * math.pi]. *)
Theorem planner_move_forwards_only_when_lost :
  forall (math_cos math_sin math_acos : Q -> Q) (self : CaveExplorer)
         (action_state : Z),
    let t0 := fst (fst (trans (tf_listener_ self))) in
    let t1 := snd (fst (trans (tf_listener_ self))) in
    let qw := snd (rot (tf_listener_ self)) in
    (action_state <> GoalStatus.LOST ->
     planner_move_forwards math_cos math_sin math_acos self action_state = Ok self) /\
    ((qw < -1)%Q \/ (1 < qw)%Q ->
     planner_move_forwards math_cos math_sin math_acos self GoalStatus.LOST
     = Raise ValueError) /\
    ((-1 <= qw)%Q -> (qw <= 1)%Q ->
     exists theta,
       (0 <= theta)%Q /\ (theta <= two_pi)%Q /\
       planner_move_forwards math_cos math_sin math_acos self GoalStatus.LOST
       = Ok (send_pose_goal math_cos math_sin self
               (mkPose2D (t0 + 10 * math_cos theta) (t1 + 10 * math_sin theta) theta))).
Proof.
  intros math_cos math_sin math_acos self action_state t0 t1 qw.
  unfold planner_move_forwards, get_pose_2d.
  subst t0 t1 qw.
  destruct (tf_listener_ self) as [[[t0 t1] t2] [[[qx qy] qz] qw]].
  cbn [trans rot fst snd]. split; [|split].
  - intro Ha. apply Z.eqb_neq in Ha. rewrite Ha. reflexivity.
  - intro Hdom. change (GoalStatus.LOST =? GoalStatus.LOST) with true. cbv iota.
    unfold py_acos.
    assert (E : Qltb qw (-1) || Qltb 1 qw = true).
    { apply orb_true_iff. destruct Hdom as [H|H]; apply Qltb_lt in H; auto. }
    rewrite E. destruct (Qle_bool 0 qz); reflexivity.
  - intros Hlo Hhi. change (GoalStatus.LOST =? GoalStatus.LOST) with true. cbv iota.
    unfold py_acos.
    assert (E : Qltb qw (-1) || Qltb 1 qw = false).
    { apply orb_false_iff. split; apply Qltb_ge; assumption. }
    rewrite E. destruct (Qle_bool 0 qz); cbn [bind].
    + destruct (wrap_angle_total (2 * math_acos qw)%Q) as (r & Hr & H0 & H1).
      exists r. rewrite Hr. cbn [bind pose2d_x pose2d_y pose2d_theta]. auto.
    + destruct (wrap_angle_total (-2 * math_acos qw)%Q) as (r & Hr & H0 & H1).
      exists r. rewrite Hr. cbn [bind pose2d_x pose2d_y pose2d_theta]. auto.
Qed.

(** [planner_move_forwards_only_when_lost] with the robot at (752, 0) and
    the identity rotation. *)
Lemma planner_move_forwards_only_when_lost_witness :
  planner_move_forwards (fun a => a) (fun a => a) (fun a => a)
    (CaveExplorer_init tf_far grid_unknown) GoalStatus.ABORTED
  = Ok (CaveExplorer_init tf_far grid_unknown) /\
  exists theta,
    planner_move_forwards (fun a => a) (fun a => a) (fun a => a)
      (CaveExplorer_init tf_far grid_unknown) GoalStatus.LOST
    = Ok (send_pose_goal (fun a => a) (fun a => a)
            (CaveExplorer_init tf_far grid_unknown)
            (mkPose2D (752 + 10 * theta) (0 + 10 * theta) theta)).
Proof.
  pose proof (planner_move_forwards_only_when_lost
                (fun a => a) (fun a => a) (fun a => a)
                (CaveExplorer_init tf_far grid_unknown) GoalStatus.ABORTED)
    as (Hother & _ & Hlost).
  split.
  - apply Hother. discriminate.
  - destruct Hlost as (theta & _ & _ & H); [discriminate | discriminate |].
    exists theta. exact H.
Defined.

(** ** The camera has no say in the planning *)

Lemma planner_to_frontiers_view (math_cos math_sin : Q -> Q)
  (self : CaveExplorer) (action_state : Z) :
  planner_to_frontiers math_cos math_sin (planning_view self) action_state
  = match planner_to_frontiers math_cos math_sin self action_state with
    | Ok self' => Ok (planning_view self')
    | Raise e => Raise e
    | Timeout => Timeout
    end.
Proof.
  unfold planner_to_frontiers. cbn [grid_map_ planning_view].
  destruct (action_state =? GoalStatus.ACTIVE); cbn [negb]; [reflexivity|].
  destruct (grid_map_ self) as [g|]; [|reflexivity].
  destruct (reshape g) as [map_data| |]; cbn [bind]; try reflexivity.
  destruct (log_detected (detect_frontiers g map_data)); cbn [bind];
    try reflexivity.
  destruct (group_nearby_frontiers g (detect_frontiers g map_data))
    as [[grouped groups]| |]; cbn [bind]; try reflexivity.
  destruct (detect_frontiers g map_data); [reflexivity|].
  destruct (find_closest g (pose2d_x Pose2D_new) (pose2d_y Pose2D_new)
              grouped None Inf)
    as [[group|]| |]; cbn [bind]; try reflexivity.
  destruct (world_centroid g group) as [[wx wy]| |]; cbn [bind]; reflexivity.
Qed.

Lemma main_loop_body_unfold (math_cos math_sin math_acos : Q -> Q)
  (self : CaveExplorer) (action_state : Z) :
  main_loop_body math_cos math_sin math_acos self action_state
  = let s := reached_flags self action_state in
    if negb (finised_exploring s)
    then (s' <- planner_to_frontiers math_cos math_sin
                  (set_planner_type_ FRONTIER_EXPLORER s) action_state ;;
          Ok (s', true))
    else if negb (returned_home_ s)
         then (s' <- planner_return_home math_cos math_sin
                       (set_planner_type_ RETURN_HOME s) action_state ;;
               Ok (s', true))
         else Ok (s, false).
Proof.
  unfold main_loop_body, reached_flags. cbv zeta.
  match goal with
  | |- context [finised_exploring ?s] =>
      destruct (finised_exploring s); [destruct (returned_home_ s)|]
  end; reflexivity.
Qed.

Lemma reached_flags_view (self : CaveExplorer) (action_state : Z) :
  reached_flags (planning_view self) action_state
  = planning_view (reached_flags self action_state).
Proof.
  unfold reached_flags. cbv zeta. cbn [planner_type_ planning_view].
  destruct (PlannerType_eqb (planner_type_ self) GO_TO_FIRST_ARTIFACT
            && (action_state =? GoalStatus.SUCCEEDED));
    cbn [planner_type_ set_reached_first_artifact_ planning_view];
    destruct (PlannerType_eqb (planner_type_ self) RETURN_HOME
              && (action_state =? GoalStatus.SUCCEEDED));
    reflexivity.
Qed.

Lemma main_loop_body_view (math_cos math_sin math_acos : Q -> Q)
  (self : CaveExplorer) (action_state : Z) :
  main_loop_body math_cos math_sin math_acos (planning_view self) action_state
  = match main_loop_body math_cos math_sin math_acos self action_state with
    | Ok (self', continue) => Ok (planning_view self', continue)
    | Raise e => Raise e
    | Timeout => Timeout
    end.
Proof.
  rewrite !main_loop_body_unfold. cbv zeta. rewrite reached_flags_view.
  set (s := reached_flags self action_state).
  cbn [finised_exploring returned_home_ planning_view].
  destruct (finised_exploring s); cbn [negb].
  - destruct (returned_home_ s); cbn [negb]; [reflexivity|].
    unfold planner_return_home.
    destruct (action_state =? GoalStatus.ACTIVE); reflexivity.
  - change (set_planner_type_ FRONTIER_EXPLORER (planning_view s))
      with (planning_view (set_planner_type_ FRONTIER_EXPLORER s)).
    rewrite planner_to_frontiers_view.
    destruct (planner_to_frontiers math_cos math_sin
                (set_planner_type_ FRONTIER_EXPLORER s) action_state);
      reflexivity.
Qed.

Lemma image_callback_view (self : CaveExplorer) (detections : list detection) :
  planning_view (image_callback self detections) = planning_view self.
Proof.
  unfold image_callback. destruct (0 <? Z.of_nat (length detections)); reflexivity.
Qed.

Lemma main_loop_view (math_cos math_sin math_acos : Q -> Q) (trace : list event) :
  forall self : CaveExplorer,
    outcome_view (main_loop math_cos math_sin math_acos trace self)
    = outcome_view (main_loop math_cos math_sin math_acos trace (planning_view self)).
Proof.
  induction trace as [|ev trace IH]; intro self; cbn [main_loop]; [reflexivity|].
  destruct ev as [action_state | m | d | tf | ].
  - rewrite main_loop_body_view.
    destruct (main_loop_body math_cos math_sin math_acos self action_state)
      as [[s1 [|]]| |]; try reflexivity.
    apply IH.
  - rewrite (IH (map_callback self m)), (IH (map_callback (planning_view self) m)).
    reflexivity.
  - rewrite (IH (image_callback self d)), (IH (image_callback (planning_view self) d)).
    rewrite !image_callback_view. reflexivity.
  - rewrite (IH (set_tf_listener_ tf self)),
            (IH (set_tf_listener_ tf (planning_view self))).
    reflexivity.
  - reflexivity.
Qed.

(** X13.  The frames of the camera have no effect on the planning: a run
    with the image callbacks taken out of the trace ends the same way, with
    the same goals sent and the same object up to [artifact_found_] and the
    published images.  Nothing in the loop reads [artifact_found_]. *)
Theorem main_loop_ignores_images :
  forall (math_cos math_sin math_acos : Q -> Q) (trace : list event)
         (self : CaveExplorer),
    outcome_view (main_loop math_cos math_sin math_acos trace self)
    = outcome_view (main_loop math_cos math_sin math_acos
                      (without_images trace) self).
Proof.
  intros math_cos math_sin math_acos trace.
  induction trace as [|ev trace IH]; intro self; [reflexivity|].
  destruct ev as [action_state | m | d | tf | ]; cbn [main_loop without_images].
  - destruct (main_loop_body math_cos math_sin math_acos self action_state)
      as [[s1 [|]]| |]; try reflexivity.
    apply IH.
  - apply IH.
  - rewrite main_loop_view, image_callback_view, <- main_loop_view. apply IH.
  - apply IH.
  - reflexivity.
Qed.
